(** * go-nebulas: the RPC API service (rpc/api_service.go)

    A shallow embedding of the request handlers of [APIService] and the
    properties of the gateway they implement.

    Conventions of the embedding.
    - Go's [uint32]/[uint64] values are [N]; the handlers only compare and
      copy them, no arithmetic is performed on them.
    - [[]byte] is [list byte]; [string] is [string]; an [error] is its
      message.
    - A Go pointer that the code tests against [nil] is an [option]; a Go
      slice that the code tests against [nil] is an [option (list _)].
    - A handler returning [(resp, err)] is modelled by the pair
      [(option resp, option error)], so that [return nil, nil] is
      expressible.
    - Collaborators outside rpc/ (core, util, byteutils, hash, the node
      behind the [Neblet] interface) are fields of the records [CoreLib]
      and [Neblet].
    - Calls that act on a collaborator (metrics, signing, the pool, the
      gas estimator, the emitters, the outbound stream) are recorded, in
      order, in a log carried by the writer monad [M].  Logging
      ([logging.VLog]) is not modelled. *)

From Stdlib Require Import String List NArith ZArith Bool Lia DecimalString.
From Stdlib.Strings Require Import Byte.
Import ListNotations.
Open Scope string_scope.
Open Scope list_scope.

Set Implicit Arguments.

(** ** Go values *)

Definition bytes := list byte.
Definition error := string.

(** A call [v, err := f(...)] whose value is used only when [err == nil]. *)
Inductive result (A : Type) : Type :=
| Ok (a : A)
| Err (e : error).
Arguments Ok {A} a.
Arguments Err {A} e.

(** What a handler returns: [(resp, err)]. *)
Definition Ret (A : Type) : Type := (option A * option error)%type.

(** ** Libraries used by the handlers: core, util, byteutils, hash *)

Record CoreLib : Type := {
  (** [*core.Address] *)
  Address : Type;
  (** [*util.Uint128] *)
  Uint128 : Type;
  (** [core.AddressParse] *)
  AddressParse : string -> result Address;
  (** [Address.Bytes], [Address.String] *)
  Address_Bytes : Address -> bytes;
  Address_String : Address -> string;
  (** [core.NewContractAddressFromHash]: both components are read
      independently by the callers. *)
  NewContractAddressFromHash : bytes -> Address * option error;
  (** the SHA3-256 digest of one byte string *)
  sha3 : bytes -> bytes;
  (** [byteutils.FromUint64], [byteutils.FromHex], [byteutils.Hex],
      [byteutils.Hash.String] *)
  FromUint64 : N -> bytes;
  FromHex : string -> bytes * option error;
  Hex : bytes -> string;
  Hash_String : bytes -> string;
  (** [util.NewUint128FromString] has a single result at its call sites. *)
  NewUint128FromString : string -> Uint128;
  Uint128_String : Uint128 -> string;
  (** [core.NewXxxPayload(...).ToBytes()] *)
  DeployPayload_ToBytes : string -> string -> string -> bytes * option error;
  CallPayload_ToBytes : string -> string -> bytes * option error;
  CandidatePayload_ToBytes : string -> bytes * option error;
  DelegatePayload_ToBytes : string -> string -> bytes * option error;
  (** string constants of package core *)
  TxPayloadBinaryType : string;
  TxPayloadDeployType : string;
  TxPayloadCallType : string;
  TxPayloadCandidateType : string;
  TxPayloadDelegateType : string;
  TopicExecuteTxSuccess : string;
  TopicExecuteTxFailed : string;
  MessageTypeNewBlock : string;
  MessageTypeNewTx : string;
  (** [corepb.Block], [corepb.Transaction] and [proto.Unmarshal] into them *)
  PbBlock : Type;
  PbTransaction : Type;
  Unmarshal_Block : bytes -> result PbBlock;
  Unmarshal_Transaction : bytes -> result PbTransaction
}.

(** Modelled from the spec: [hash.Sha3256] is variadic and is not among the
    sources; the contract address is "a hash over (from-address bytes ‖
    nonce bytes)", so the digest is taken over the concatenation of the
    arguments. *)
Definition Sha3256 (L : CoreLib) (args : list bytes) : bytes :=
  sha3 L (concat args).

(** ** Wire requests and responses (package rpcpb), by the fields the
    handlers read and write *)

Record ContractRequest : Type := {
  Source : string;
  SourceType : string;
  Function : string;
  Args : string
}.

Record CandidateRequest : Type := {
  Candidate_Action : string
}.

Record DelegateRequest : Type := {
  Delegate_Action : string;
  Delegatee : string
}.

Record TransactionRequest : Type := {
  From : string;
  To : string;
  Value : string;
  Nonce : N;
  GasPrice : string;
  GasLimit : string;
  Contract : option ContractRequest;
  Candidate : option CandidateRequest;
  Delegate : option DelegateRequest
}.

Record SendTransactionResponse : Type := {
  Txhash : string;
  SendTx_ContractAddress : string
}.

Record GetAccountStateRequest : Type := {
  AccountState_Address : string;
  AccountState_Height : N
}.

Record GetAccountStateResponse : Type := {
  Balance : string;
  AccountState_Nonce : string
}.

Record TransactionResponse : Type := {
  Tx_ChainId : N;
  Tx_Hash : string;
  Tx_From : string;
  Tx_To : string;
  Tx_Value : string;
  Tx_Nonce : N;
  Tx_Timestamp : Z;
  Tx_Type : string;
  Tx_Data : bytes;
  Tx_GasPrice : string;
  Tx_GasLimit : string;
  Tx_Status : N;
  Tx_ContractAddress : string
}.

Record DposContextResponse : Type := {
  DynastyRoot : string;
  NextDynastyRoot : string;
  DelegateRoot : string;
  CandidateRoot : string;
  VoteRoot : string;
  MintCntRoot : string
}.

(** Modelled from the spec: the declaration of [rpcpb.BlockResponse] is not
    among the sources.  The fields are those of the composite literal in
    [toBlockResponse], [DposContext], and [Transactions], the "block's
    transaction list" of the formatted block. *)
Record BlockResponse : Type := {
  Block_Hash : string;
  Block_ParentHash : string;
  Block_Height : N;
  Block_Nonce : N;
  Block_Coinbase : string;
  Block_Miner : string;
  Block_Timestamp : Z;
  Block_ChainId : N;
  Block_StateRoot : string;
  Block_TxsRoot : string;
  Block_EventsRoot : string;
  Block_DposContext : option DposContextResponse;
  Block_Transactions : list (option TransactionResponse)
}.

Record GetBlockByHashRequest : Type := {
  ByHash_Hash : string;
  ByHash_FullTransaction : bool
}.

Record GetBlockByHeightRequest : Type := {
  ByHeight_Height : N;
  ByHeight_FullTransaction : bool
}.

Record GasResponse : Type := {
  Gas : string
}.

Record RpcEvent : Type := {
  RpcEvent_Topic : string;
  RpcEvent_Data : string
}.

Record EventsResponse : Type := {
  Events : list RpcEvent
}.

Record SubscribeResponse : Type := {
  MsgType : string;
  Data : string
}.

(** The numeric transaction status of a [TransactionResponse].
    Modelled from the spec: the names "failed", "success" and "pending" of
    the three values [toTransactionResponse] assigns. *)
Definition StatusFailed : N := 0.
Definition StatusSuccess : N := 1.
Definition StatusPending : N := 2.

(** ** Domain objects of package core *)

Section Domain.

Variable L : CoreLib.

(** Modelled from the spec: [core.Transaction] is not among the sources.
    "Transaction: chain-id, from, to, value, nonce, payload-type tag,
    payload bytes, gas price, gas limit"; the timestamp is the one read by
    [Timestamp()].  The hash is computed from the transaction
    ([Transaction_Hash] of [Neblet]). *)
Record Transaction : Type := {
  tx_chainID : N;
  tx_from : Address L;
  tx_to : Address L;
  tx_value : Uint128 L;
  tx_nonce : N;
  tx_timestamp : Z;
  tx_type : string;
  tx_payload : bytes;
  tx_gasPrice : Uint128 L;
  tx_gasLimit : Uint128 L;
  tx_sign : bytes
}.

(** [core.Event] *)
Record Event : Type := {
  Topic : string;
  Event_Data : string
}.

(** [nnet.Message], by [MessageType()] and [Data().([]byte)] *)
Record Message : Type := {
  MessageType : string;
  Message_Data : bytes
}.

Record DposContext : Type := {
  dpos_DynastyRoot : bytes;
  dpos_NextDynastyRoot : bytes;
  dpos_DelegateRoot : bytes;
  dpos_CandidateRoot : bytes;
  dpos_VoteRoot : bytes;
  dpos_MintCntRoot : bytes
}.

(** [*core.Block], by the methods the handlers call. *)
Record Block : Type := {
  block_Hash : bytes;
  block_ParentHash : bytes;
  block_Height : N;
  block_Nonce : N;
  block_Coinbase : Address L;
  block_Miner : Address L;
  block_Timestamp : Z;
  block_ChainID : N;
  block_StateRoot : bytes;
  block_TxsRoot : bytes;
  block_EventsRoot : bytes;
  block_DposContext : DposContext;
  block_Transactions : list Transaction;
  GetBalance : bytes -> Uint128 L;
  GetNonce : bytes -> N;
  (** [FetchEvents] returns [([]*Event, error)]; the slice may be nil. *)
  FetchEvents : bytes -> option (list Event) * option error;
  (** [Block.GetTransaction] returns a transaction pointer and an error. *)
  block_GetTransaction : bytes -> option Transaction * option error
}.

(** The node behind the [Neblet] interface: chain, account manager, pool,
    and the codecs of core objects. *)
Record Neblet : Type := {
  ChainID : N;
  TailBlock : Block;
  GetBlock : bytes -> option Block;
  GetBlockOnCanonicalChainByHeight : N -> option Block;
  LatestIrreversibleBlock : option Block;
  GetTransaction : bytes -> option Transaction;
  EstimateGas : Transaction -> result (Uint128 L);
  (** [AccountManager().SignTransaction(addr, tx)] updates [tx] in place. *)
  SignTransaction : Address L -> Transaction -> Transaction * option error;
  PushAndBroadcast : Transaction -> option error;
  Transaction_Hash : Transaction -> bytes;
  (** [time.Now().Unix()] at the construction of a transaction *)
  now : Z;
  Block_FromProto : PbBlock L -> result Block;
  Transaction_FromProto : PbTransaction L -> result Transaction;
  Marshal_Block : Block -> result string;
  Marshal_Transaction : Transaction -> result string
}.

(** Modelled from the spec: [core.NewTransaction] is not among the sources;
    it stores the canonical fields it is given. *)
Definition NewTransaction (neb : Neblet) (chainID : N) (from to : Address L)
    (value : Uint128 L) (nonce : N) (payloadType : string) (payload : bytes)
    (gasPrice gasLimit : Uint128 L) : Transaction :=
  {| tx_chainID := chainID; tx_from := from; tx_to := to; tx_value := value;
     tx_nonce := nonce; tx_timestamp := now neb; tx_type := payloadType;
     tx_payload := payload; tx_gasPrice := gasPrice; tx_gasLimit := gasLimit;
     tx_sign := [] |}.

(** Modelled from the spec: [Transaction.GenerateContractAddress] is not
    among the sources.  "ContractAddress: deterministically derived as a
    hash over (from-address bytes ‖ nonce bytes) ...; used both at
    submission time ... and at receipt time (recomputed, must match)". *)
Definition GenerateContractAddress (tx : Transaction)
    : Address L * option error :=
  NewContractAddressFromHash L
    (Sha3256 L [Address_Bytes L (tx_from tx); FromUint64 L (tx_nonce tx)]).

(** ** Recorded collaborator calls *)

Inductive Metric : Type :=
| metricsRPCCounter
| metricsAccountStateFailed
| metricsAccountStateSuccess
| metricsSendTxFailed
| metricsSendTxSuccess
| metricsSendRawTxFailed
| metricsSendRawTxSuccess.

Inductive Effect : Type :=
| Mark (m : Metric)
| CallSignTransaction (addr : Address L) (tx : Transaction)
| CallPushAndBroadcast (tx : Transaction)
| CallEstimateGas (tx : Transaction)
| EmitterRegister (topic : string)
| EmitterDeregister (topic : string)
| NetRegister (msgType : string)
| NetDeregister (msgType : string)
| StreamSend (r : SubscribeResponse).

(** The writer monad of the handlers: a value and the calls made, oldest
    first. *)
Definition M (A : Type) : Type := (A * list Effect)%type.

Definition ret {A : Type} (a : A) : M A := (a, []).

Definition bind {A B : Type} (m : M A) (f : A -> M B) : M B :=
  let (a, t1) := m in
  let (b, t2) := f a in
  (b, t1 ++ t2).

Definition call (e : Effect) : M unit := (tt, [e]).

End Domain.

Arguments ret {L A} a.
Arguments bind {L A B} m f.
Arguments call {L} e.
Arguments Mark {L} m.
Arguments EmitterRegister {L} topic.
Arguments EmitterDeregister {L} topic.
Arguments NetRegister {L} msgType.
Arguments NetDeregister {L} msgType.
Arguments StreamSend {L} r.

Declare Scope go_scope.
Delimit Scope go_scope with go.
Notation "x <- c1 ;; c2" := (bind c1 (fun x => c2))
  (at level 61, c1 at next level, right associativity) : go_scope.
Notation "c1 ;; c2" := (bind c1 (fun _ => c2))
  (at level 61, right associativity) : go_scope.
Open Scope go_scope.

Record HashRequest : Type := {
  HashRequest_Hash : string
}.

Record GetTransactionByHashRequest : Type := {
  ByHash_TxHash : string
}.

Record SubscribeRequest : Type := {
  Subscribe_Topic : list string
}.

(** [fmt.Sprintf("%d", n)] on an unsigned integer *)
Definition Sprintf_d (n : N) : string :=
  NilEmpty.string_of_uint (N.to_uint n).

(** The zero value of [rpcpb.TransactionResponse]. *)
Definition zeroTransactionResponse : TransactionResponse :=
  {| Tx_ChainId := 0; Tx_Hash := ""; Tx_From := ""; Tx_To := "";
     Tx_Value := ""; Tx_Nonce := 0; Tx_Timestamp := 0%Z; Tx_Type := "";
     Tx_Data := []; Tx_GasPrice := ""; Tx_GasLimit := ""; Tx_Status := 0;
     Tx_ContractAddress := "" |}.

(** ** The handlers of [APIService] *)

Section APIService.

Variable L : CoreLib.

(** [s.server.Neblet()] *)
Variable neb : Neblet L.

(** [parseTransaction] *)
Definition parseTransaction (reqTx : TransactionRequest)
    : result (Transaction L) :=
  match AddressParse L (From reqTx) with
  | Err err => Err err
  | Ok fromAddr =>
    match AddressParse L (To reqTx) with
    | Err err => Err err
    | Ok toAddr =>
      let value := NewUint128FromString L (Value reqTx) in
      let gasPrice := NewUint128FromString L (GasPrice reqTx) in
      let gasLimit := NewUint128FromString L (GasLimit reqTx) in
      (* the branches that do not look at reqTx.Contract *)
      let afterContract : string * (bytes * option error) :=
        match Candidate reqTx with
        | Some candidate =>
            (TxPayloadCandidateType L,
             CandidatePayload_ToBytes L (Candidate_Action candidate))
        | None =>
          match Delegate reqTx with
          | Some delegate =>
              (TxPayloadDelegateType L,
               DelegatePayload_ToBytes L (Delegate_Action delegate)
                 (Delegatee delegate))
          | None => (TxPayloadBinaryType L, ([], None))
          end
        end in
      let '(payloadType, (payload, err)) :=
        match Contract reqTx with
        | Some contract =>
          if (0 <? String.length (Source contract))%nat then
            (TxPayloadDeployType L,
             DeployPayload_ToBytes L (Source contract) (SourceType contract)
               (Args contract))
          else if (0 <? String.length (Function contract))%nat then
            (TxPayloadCallType L,
             CallPayload_ToBytes L (Function contract) (Args contract))
          else afterContract
        | None => afterContract
        end in
      match err with
      | Some err => Err err
      | None =>
          Ok (NewTransaction neb (ChainID neb) fromAddr toAddr value
                (Nonce reqTx) payloadType payload gasPrice gasLimit)
      end
    end
  end.

(** [sendTransaction] *)
Definition sendTransaction (req : TransactionRequest)
    : M L (Ret SendTransactionResponse) :=
  let tail := TailBlock neb in
  match AddressParse L (From req) with
  | Err err =>
      call (Mark metricsSendTxFailed) ;;
      ret (None, Some err)
  | Ok addr =>
    if (Nonce req <=? GetNonce tail (Address_Bytes L addr))%N then
      call (Mark metricsSendTxFailed) ;;
      ret (None, Some "nonce is invalid")
    else
      match parseTransaction req with
      | Err err =>
          call (Mark metricsSendTxFailed) ;;
          ret (None, Some err)
      | Ok tx =>
        call (CallSignTransaction (tx_from tx) tx) ;;
        let (tx, serr) := SignTransaction neb (tx_from tx) tx in
        match serr with
        | Some err =>
            call (Mark metricsSendTxFailed) ;;
            ret (None, Some err)
        | None =>
          call (CallPushAndBroadcast tx) ;;
          match PushAndBroadcast neb tx with
          | Some err =>
              call (Mark metricsSendTxFailed) ;;
              ret (None, Some err)
          | None =>
            if (tx_type tx =? TxPayloadDeployType L)%string then
              let (address, _) :=
                NewContractAddressFromHash L
                  (Sha3256 L [Address_Bytes L (tx_from tx);
                              FromUint64 L (tx_nonce tx)]) in
              call (Mark metricsSendTxSuccess) ;;
              ret (Some {| Txhash := Hash_String L (Transaction_Hash neb tx);
                           SendTx_ContractAddress :=
                             Address_String L address |}, None)
            else
              call (Mark metricsSendTxSuccess) ;;
              ret (Some {| Txhash := Hash_String L (Transaction_Hash neb tx);
                           SendTx_ContractAddress := "" |}, None)
          end
        end
      end
  end.

(** [SendTransaction] *)
Definition SendTransaction (req : TransactionRequest)
    : M L (Ret SendTransactionResponse) :=
  call (Mark metricsRPCCounter) ;;
  sendTransaction req.

(** [GetAccountState] *)
Definition GetAccountState (req : GetAccountStateRequest)
    : M L (Ret GetAccountStateResponse) :=
  call (Mark metricsRPCCounter) ;;
  match AddressParse L (AccountState_Address req) with
  | Err err =>
      call (Mark metricsAccountStateFailed) ;;
      ret (None, Some err)
  | Ok addr =>
    let block := Some (TailBlock neb) in
    let block :=
      if (0 <? AccountState_Height req)%N
      then GetBlockOnCanonicalChainByHeight neb (AccountState_Height req)
      else block in
    match block with
    | None =>
        call (Mark metricsAccountStateFailed) ;;
        ret (None, Some "block not found")
    | Some block =>
        let balance := GetBalance block (Address_Bytes L addr) in
        let nonce := GetNonce block (Address_Bytes L addr) in
        call (Mark metricsAccountStateSuccess) ;;
        ret (Some {| Balance := Uint128_String L balance;
                     AccountState_Nonce := Sprintf_d nonce |}, None)
    end
  end.

(** The [for ... range events] loop of [toTransactionResponse]: the first
    event with one of the two execution topics sets the status and breaks;
    otherwise [status] is left as it was. *)
Fixpoint rangeEvents (events : list (Event)) (status : N) : N :=
  match events with
  | [] => status
  | v :: events' =>
      if (Topic v =? TopicExecuteTxSuccess L)%string then 1%N
      else if (Topic v =? TopicExecuteTxFailed L)%string then 0%N
      else rangeEvents events' status
  end.

(** [toTransactionResponse] *)
Definition toTransactionResponse (tx : Transaction L)
    : Ret TransactionResponse :=
  (* var status uint32 *)
  let status : N := 0%N in
  let (events, _) := FetchEvents (TailBlock neb) (Transaction_Hash neb tx) in
  let status :=
    match events with
    | None => 2%N
    | Some events => rangeEvents events status
    end in
  let resp :=
    {| Tx_ChainId := tx_chainID tx;
       Tx_Hash := Hash_String L (Transaction_Hash neb tx);
       Tx_From := Address_String L (tx_from tx);
       Tx_To := Address_String L (tx_to tx);
       Tx_Value := Uint128_String L (tx_value tx);
       Tx_Nonce := tx_nonce tx;
       Tx_Timestamp := tx_timestamp tx;
       Tx_Type := tx_type tx;
       Tx_Data := tx_payload tx;
       Tx_GasPrice := Uint128_String L (tx_gasPrice tx);
       Tx_GasLimit := Uint128_String L (tx_gasLimit tx);
       Tx_Status := status;
       Tx_ContractAddress := "" |} in
  if (tx_type tx =? TxPayloadDeployType L)%string then
    let (contractAddr, err) := GenerateContractAddress tx in
    match err with
    | Some err => (None, Some err)
    | None =>
        (Some {| Tx_ChainId := Tx_ChainId resp; Tx_Hash := Tx_Hash resp;
                 Tx_From := Tx_From resp; Tx_To := Tx_To resp;
                 Tx_Value := Tx_Value resp; Tx_Nonce := Tx_Nonce resp;
                 Tx_Timestamp := Tx_Timestamp resp; Tx_Type := Tx_Type resp;
                 Tx_Data := Tx_Data resp; Tx_GasPrice := Tx_GasPrice resp;
                 Tx_GasLimit := Tx_GasLimit resp;
                 Tx_Status := Tx_Status resp;
                 Tx_ContractAddress := Address_String L contractAddr |},
         None)
    end
  else (Some resp, None).

(** [GetTransactionReceipt] *)
Definition GetTransactionReceipt (req : GetTransactionByHashRequest)
    : M L (Ret TransactionResponse) :=
  call (Mark metricsRPCCounter) ;;
  let (bhash, _) := FromHex L (ByHash_TxHash req) in
  match GetTransaction neb bhash with
  | None => ret (None, Some "transaction not found")
  | Some tx => ret (toTransactionResponse tx)
  end.

(** [toBlockResponse].  The slice [txs] is built by the loop and is not
    stored in [resp]. *)
Definition toBlockResponse (block : option (Block L)) (fullTransaction : bool)
    : Ret BlockResponse :=
  match block with
  | None => (None, Some "block not found")
  | Some block =>
    let dposContextResp :=
      {| DynastyRoot := Hex L (dpos_DynastyRoot (block_DposContext block));
         NextDynastyRoot :=
           Hex L (dpos_NextDynastyRoot (block_DposContext block));
         DelegateRoot := Hex L (dpos_DelegateRoot (block_DposContext block));
         CandidateRoot := Hex L (dpos_CandidateRoot (block_DposContext block));
         VoteRoot := Hex L (dpos_VoteRoot (block_DposContext block));
         MintCntRoot := Hex L (dpos_MintCntRoot (block_DposContext block)) |} in
    let resp :=
      {| Block_Hash := Hash_String L (block_Hash block);
         Block_ParentHash := Hash_String L (block_ParentHash block);
         Block_Height := block_Height block;
         Block_Nonce := block_Nonce block;
         Block_Coinbase := Address_String L (block_Coinbase block);
         Block_Miner := Address_String L (block_Miner block);
         Block_Timestamp := block_Timestamp block;
         Block_ChainId := block_ChainID block;
         Block_StateRoot := Hash_String L (block_StateRoot block);
         Block_TxsRoot := Hash_String L (block_TxsRoot block);
         Block_EventsRoot := Hash_String L (block_EventsRoot block);
         Block_DposContext := Some dposContextResp;
         Block_Transactions := [] |} in
    (* add block transactions *)
    let txs : list (option TransactionResponse) :=
      fold_left
        (fun txs v =>
           let tx :=
             if fullTransaction then fst (toTransactionResponse v)
             else Some {| Tx_ChainId := 0;
                          Tx_Hash := Hash_String L (Transaction_Hash neb v);
                          Tx_From := ""; Tx_To := ""; Tx_Value := "";
                          Tx_Nonce := 0; Tx_Timestamp := 0%Z; Tx_Type := "";
                          Tx_Data := []; Tx_GasPrice := ""; Tx_GasLimit := "";
                          Tx_Status := 0; Tx_ContractAddress := "" |} in
           txs ++ [tx])
        (block_Transactions block) [] in
    (Some resp, None)
  end.

(** [GetBlockByHash] *)
Definition GetBlockByHash (req : GetBlockByHashRequest)
    : M L (Ret BlockResponse) :=
  call (Mark metricsRPCCounter) ;;
  match FromHex L (ByHash_Hash req) with
  | (_, Some err) => ret (None, Some err)
  | (bhash, None) =>
      let block := GetBlock neb bhash in
      ret (toBlockResponse block (ByHash_FullTransaction req))
  end.

(** [GetBlockByHeight] *)
Definition GetBlockByHeight (req : GetBlockByHeightRequest)
    : M L (Ret BlockResponse) :=
  call (Mark metricsRPCCounter) ;;
  let block := GetBlockOnCanonicalChainByHeight neb (ByHeight_Height req) in
  ret (toBlockResponse block (ByHeight_FullTransaction req)).

(** [LatestIrreversibleBlock] *)
Definition LatestIrreversibleBlockHandler : M L (Ret BlockResponse) :=
  call (Mark metricsRPCCounter) ;;
  let block := LatestIrreversibleBlock neb in
  ret (toBlockResponse block false).

(** [GetGasUsed] *)
Definition GetGasUsed (req : HashRequest) : M L (Ret GasResponse) :=
  call (Mark metricsRPCCounter) ;;
  match FromHex L (HashRequest_Hash req) with
  | (_, Some err) => ret (None, Some err)
  | (hash, None) =>
    match GetTransaction neb hash with
    | None => ret (None, Some "transaction not found")
    | Some tx =>
      call (CallEstimateGas tx) ;;
      match EstimateGas neb tx with
      | Err err => ret (None, Some err)
      | Ok gas => ret (Some {| Gas := Uint128_String L gas |}, None)
      end
    end
  end.

(** [GetEventsByHash] *)
Definition GetEventsByHash (req : HashRequest) : M L (Ret EventsResponse) :=
  call (Mark metricsRPCCounter) ;;
  let (bhash, _) := FromHex L (HashRequest_Hash req) in
  match block_GetTransaction (TailBlock neb) bhash with
  | (_, Some err) => ret (None, Some err)
  | (Some tx, None) =>
    match FetchEvents (TailBlock neb) (Transaction_Hash neb tx) with
    | (_, Some err) => ret (None, Some err)
    | (result, None) =>
        let events :=
          map (fun v => {| RpcEvent_Topic := Topic v;
                           RpcEvent_Data := Event_Data v |})
              (match result with Some l => l | None => [] end) in
        ret (Some {| Events := events |}, None)
    end
  | (None, None) => ret (None, None)
  end.

(** *** Subscribe

    The handler blocks in [select] on its two channels; what the session
    receives is given as the list of arrivals, in the order [select] picks
    them, each with the result [gs.Send] has for it if it is called. *)

Inductive Arrival : Type :=
| FromChainEventCh (event : Event) (sendErr : option error)
| FromNetEventCh (event : Message) (sendErr : option error).

(** The [for { select { ... } }] loop.  [Some err] is [return err]; [None]
    is the loop blocked in [select] with nothing more to receive. *)
Fixpoint streamLoop (arrivals : list Arrival) : M L (option error) :=
  match arrivals with
  | [] => ret None
  | FromChainEventCh event sendErr :: arrivals' =>
      call (StreamSend {| MsgType := Topic event;
                          Data := Event_Data event |}) ;;
      match sendErr with
      | Some err => ret (Some err)
      | None => streamLoop arrivals'
      end
  | FromNetEventCh event sendErr :: arrivals' =>
      if (MessageType event =? MessageTypeNewBlock L)%string then
        match Unmarshal_Block L (Message_Data event) with
        | Err err => ret (Some err)
        | Ok pbblock =>
          match Block_FromProto neb pbblock with
          | Err err => ret (Some err)
          | Ok block =>
            match Marshal_Block neb block with
            | Err err => ret (Some err)
            | Ok blockjson =>
                (* err = gs.Send(...); err is not read afterwards *)
                call (StreamSend {| MsgType := MessageType event;
                                    Data := blockjson |}) ;;
                streamLoop arrivals'
            end
          end
        end
      else if (MessageType event =? MessageTypeNewTx L)%string then
        match Unmarshal_Transaction L (Message_Data event) with
        | Err err => ret (Some err)
        | Ok pbTx =>
          match Transaction_FromProto neb pbTx with
          | Err err => ret (Some err)
          | Ok tx =>
            match Marshal_Transaction neb tx with
            | Err err => ret (Some err)
            | Ok txjson =>
                (* err = gs.Send(...); err is not read afterwards *)
                call (StreamSend {| MsgType := MessageType event;
                                    Data := txjson |}) ;;
                streamLoop arrivals'
            end
          end
        end
      else streamLoop arrivals'
  end.

(** [for _, v := range req.Topic { f(v) }] *)
Fixpoint rangeTopics (f : string -> Effect L) (topics : list string)
    : M L unit :=
  match topics with
  | [] => ret tt
  | v :: topics' => call (f v) ;; rangeTopics f topics'
  end.

Inductive Session : Type :=
| Streaming
| Closed (err : error).

(** [Subscribe].  The deferred calls run when the loop returns, the last
    deferred first. *)
Definition Subscribe (req : SubscribeRequest) (arrivals : list Arrival)
    : M L Session :=
  call (Mark metricsRPCCounter) ;;
  rangeTopics EmitterRegister (Subscribe_Topic req) ;;
  call (NetRegister (MessageTypeNewBlock L)) ;;
  call (NetRegister (MessageTypeNewTx L)) ;;
  r <- streamLoop arrivals ;;
  match r with
  | None => ret Streaming
  | Some err =>
      call (NetDeregister (MessageTypeNewTx L)) ;;
      call (NetDeregister (MessageTypeNewBlock L)) ;;
      rangeTopics EmitterDeregister (Subscribe_Topic req) ;;
      ret (Closed err)
  end.

End APIService.

(** ** The handlers that submit raw transactions, estimate gas and call *)

Record SendRawTransactionRequest : Type := {
  Raw_Data : bytes
}.

Record CallResponse : Type := {
  Result : string
}.

Section DryRunAndRaw.

Variable L : CoreLib.
Variable neb : Neblet L.

(** [neb.BlockChain().Call(tx)], the read-only execution of a transaction
    against the chain state. *)
Variable BlockChain_Call : Transaction L -> result string.

(** [SendRawTransaction] *)
Definition SendRawTransaction (req : SendRawTransactionRequest)
    : M L (Ret SendTransactionResponse) :=
  call (Mark metricsRPCCounter) ;;
  match Unmarshal_Transaction L (Raw_Data req) with
  | Err err =>
      call (Mark metricsSendRawTxFailed) ;;
      ret (None, Some err)
  | Ok pbTx =>
    match Transaction_FromProto neb pbTx with
    | Err err =>
        call (Mark metricsSendRawTxFailed) ;;
        ret (None, Some err)
    | Ok tx =>
      call (CallPushAndBroadcast tx) ;;
      match PushAndBroadcast neb tx with
      | Some err =>
          call (Mark metricsSendRawTxFailed) ;;
          ret (None, Some err)
      | None =>
        if (tx_type tx =? TxPayloadDeployType L)%string then
          call (Mark metricsSendRawTxSuccess) ;;
          let (address, _) :=
            NewContractAddressFromHash L
              (Sha3256 L [Address_Bytes L (tx_from tx);
                          FromUint64 L (tx_nonce tx)]) in
          ret (Some {| Txhash := Hash_String L (Transaction_Hash neb tx);
                       SendTx_ContractAddress := Address_String L address |},
               None)
        else
          call (Mark metricsSendRawTxSuccess) ;;
          ret (Some {| Txhash := Hash_String L (Transaction_Hash neb tx);
                       SendTx_ContractAddress := "" |}, None)
      end
    end
  end.

(** [EstimateGas], the handler *)
Definition EstimateGasHandler (req : TransactionRequest)
    : M L (Ret GasResponse) :=
  call (Mark metricsRPCCounter) ;;
  match parseTransaction neb req with
  | Err err => ret (None, Some err)
  | Ok tx =>
    call (CallEstimateGas tx) ;;
    match EstimateGas neb tx with
    | Err err => ret (None, Some err)
    | Ok estimateGas =>
        ret (Some {| Gas := Uint128_String L estimateGas |}, None)
    end
  end.

(** [Call] *)
Definition Call (req : TransactionRequest) : M L (Ret CallResponse) :=
  call (Mark metricsRPCCounter) ;;
  match parseTransaction neb req with
  | Err err => ret (None, Some err)
  | Ok tx =>
    match BlockChain_Call tx with
    | Err err => ret (None, Some err)
    | Ok result => ret (Some {| Result := result |}, None)
    end
  end.

End DryRunAndRaw.

(** A sign or a push among the recorded calls. *)
Definition touchesSignerOrPool {L : CoreLib} (e : Effect L) : Prop :=
  match e with
  | CallSignTransaction _ _ => True
  | CallPushAndBroadcast _ => True
  | _ => False
  end.

(** A deregistration among the recorded calls. *)
Definition isDeregister {L : CoreLib} (e : Effect L) : Prop :=
  match e with
  | EmitterDeregister _ => True
  | NetDeregister _ => True
  | _ => False
  end.

Section Decoding.

Variable L : CoreLib.
Variable neb : Neblet L.

(** The three steps [Subscribe] applies to the data of a new-block
    message, in order: [proto.Unmarshal], [FromProto], [json.Marshal]. *)
Definition decodeBlockMessage (data : bytes) : result string :=
  match Unmarshal_Block L data with
  | Err err => Err err
  | Ok pbblock =>
    match Block_FromProto neb pbblock with
    | Err err => Err err
    | Ok block => Marshal_Block neb block
    end
  end.

(** The same three steps for a new-transaction message. *)
Definition decodeTxMessage (data : bytes) : result string :=
  match Unmarshal_Transaction L data with
  | Err err => Err err
  | Ok pbTx =>
    match Transaction_FromProto neb pbTx with
    | Err err => Err err
    | Ok tx => Marshal_Transaction neb tx
    end
  end.

End Decoding.

(** ** The specification's reading of payload selection and of the
    contract address

    These definitions follow the words of the specification, not the
    code; the theorems below compare the handlers with them. *)

Inductive PayloadVariant : Type :=
| VDeploy
| VCall
| VCandidate
| VDelegate
| VBinary.

(** "a populated deploy-contract group (non-empty Source)" *)
Definition deployPopulated (req : TransactionRequest) : bool :=
  match Contract req with
  | Some c => negb (Source c =? "")%string
  | None => false
  end.

(** "a populated call-contract group (non-empty Function)" *)
Definition callPopulated (req : TransactionRequest) : bool :=
  match Contract req with
  | Some c => negb (Function c =? "")%string
  | None => false
  end.

Definition candidatePopulated (req : TransactionRequest) : bool :=
  match Candidate req with
  | Some _ => true
  | None => false
  end.

Definition delegatePopulated (req : TransactionRequest) : bool :=
  match Delegate req with
  | Some _ => true
  | None => false
  end.

(** "the first recognized in a fixed precedence order
    (deploy > call > candidate > delegate > none) wins" *)
Definition selectByPrecedence (req : TransactionRequest) : PayloadVariant :=
  if deployPopulated req then VDeploy
  else if callPopulated req then VCall
  else if candidatePopulated req then VCandidate
  else if delegatePopulated req then VDelegate
  else VBinary.

(** The request with its three numeric strings replaced. *)
Definition withAmounts (req : TransactionRequest)
    (value gasPrice gasLimit : string) : TransactionRequest :=
  {| From := From req; To := To req; Value := value; Nonce := Nonce req;
     GasPrice := gasPrice; GasLimit := gasLimit; Contract := Contract req;
     Candidate := Candidate req; Delegate := Delegate req |}.

Section Reference.

Variable L : CoreLib.
Variable neb : Neblet L.

Definition typeTag (v : PayloadVariant) : string :=
  match v with
  | VDeploy => TxPayloadDeployType L
  | VCall => TxPayloadCallType L
  | VCandidate => TxPayloadCandidateType L
  | VDelegate => TxPayloadDelegateType L
  | VBinary => TxPayloadBinaryType L
  end.

(** "each variant serializes to an opaque byte payload"; a plain transfer
    carries none. *)
Definition serialize (v : PayloadVariant) (req : TransactionRequest)
    : bytes * option error :=
  match v, Contract req, Candidate req, Delegate req with
  | VDeploy, Some c, _, _ =>
      DeployPayload_ToBytes L (Source c) (SourceType c) (Args c)
  | VCall, Some c, _, _ => CallPayload_ToBytes L (Function c) (Args c)
  | VCandidate, _, Some c, _ => CandidatePayload_ToBytes L (Candidate_Action c)
  | VDelegate, _, _, Some d =>
      DelegatePayload_ToBytes L (Delegate_Action d) (Delegatee d)
  | _, _, _, _ => ([], None)
  end.

(** The transaction assembled for a given variant, or the serialization
    error of that variant. *)
Definition assemble (req : TransactionRequest) (fromAddr toAddr : Address L)
    (v : PayloadVariant) : result (Transaction L) :=
  match serialize v req with
  | (_, Some err) => Err err
  | (payload, None) =>
      Ok (NewTransaction neb (ChainID neb) fromAddr toAddr
            (NewUint128FromString L (Value req)) (Nonce req) (typeTag v)
            payload (NewUint128FromString L (GasPrice req))
            (NewUint128FromString L (GasLimit req)))
  end.

(** "the address derived from the hash of (S's address bytes concatenated
    with the byte encoding of n)", in its string form. *)
Definition derivedContractAddress (S : Address L) (n : N) : string :=
  Address_String L
    (fst (NewContractAddressFromHash L
            (sha3 L (Address_Bytes L S ++ FromUint64 L n)))).

(** "matching execution event": an event whose topic is one of the two
    execution topics. *)
Definition decides (v : Event) : bool :=
  ((Topic v =? TopicExecuteTxSuccess L)
   || (Topic v =? TopicExecuteTxFailed L))%string.

(** A write to the outbound stream. *)
Definition isSend (e : Effect L) : Prop :=
  match e with
  | StreamSend _ => True
  | _ => False
  end.

End Reference.

(** ** A concrete node

    A small instance of [CoreLib] and [Neblet] on which the handlers can be
    run: addresses are their bytes, amounts are natural numbers, the digest
    is a stand-in that pads or cuts its input to 32 bytes. *)

Module Sample.

Fixpoint bytes_eqb (a b : bytes) : bool :=
  match a, b with
  | [], [] => true
  | x :: a', y :: b' => Byte.eqb x y && bytes_eqb a' b'
  | _, _ => false
  end.

Definition isDigit (c : Ascii.ascii) : bool :=
  let n := Ascii.nat_of_ascii c in ((48 <=? n) && (n <=? 57))%nat.

Fixpoint allDigits (s : string) : bool :=
  match s with
  | EmptyString => true
  | String c s' => isDigit c && allDigits s'
  end.

(** A well-formed decimal string: one digit or more, digits only. *)
Definition isDecimal (s : string) : bool :=
  negb (s =? "")%string && allDigits s.

(** Modelled from the spec: [util.NewUint128FromString] is not among the
    sources; a malformed string is "silently default[ed] to zero". *)
Definition parseUint (s : string) : N :=
  if isDecimal s then
    match NilEmpty.uint_of_string s with
    | Some u => N.of_uint u
    | None => 0
    end
  else 0.

(** Eight bytes, most significant first. *)
Definition uint64Bytes (n : N) : bytes :=
  map (fun i =>
         match Byte.of_N (N.land (N.shiftr n (8 * i)) 255) with
         | Some b => b
         | None => x00
         end)
      [7; 6; 5; 4; 3; 2; 1; 0]%N.

Definition lib : CoreLib :=
  {| Address := bytes;
     Uint128 := N;
     AddressParse := fun s =>
       if (s =? "")%string then Err "address: invalid address"
       else Ok (list_byte_of_string s);
     Address_Bytes := fun a => a;
     Address_String := string_of_list_byte;
     NewContractAddressFromHash := fun h =>
       if (length h <? 20)%nat then ([], Some "address: invalid hash")
       else (firstn 20 h, None);
     sha3 := fun b => firstn 32 (b ++ repeat x00 32);
     FromUint64 := uint64Bytes;
     FromHex := fun s =>
       if Nat.even (String.length s) then (list_byte_of_string s, None)
       else ([], Some "encoding/hex: odd length hex string");
     Hex := string_of_list_byte;
     Hash_String := string_of_list_byte;
     NewUint128FromString := parseUint;
     Uint128_String := Sprintf_d;
     DeployPayload_ToBytes := fun source sourceType args =>
       (list_byte_of_string (source ++ sourceType ++ args)%string, None);
     CallPayload_ToBytes := fun function args =>
       (list_byte_of_string (function ++ args)%string, None);
     CandidatePayload_ToBytes := fun action =>
       (list_byte_of_string action, None);
     DelegatePayload_ToBytes := fun action delegatee =>
       (list_byte_of_string (action ++ delegatee)%string, None);
     TxPayloadBinaryType := "binary";
     TxPayloadDeployType := "deploy";
     TxPayloadCallType := "call";
     TxPayloadCandidateType := "candidate";
     TxPayloadDelegateType := "delegate";
     TopicExecuteTxSuccess := "chain.executeTxSuccess";
     TopicExecuteTxFailed := "chain.executeTxFailed";
     MessageTypeNewBlock := "newblock";
     MessageTypeNewTx := "newtx";
     PbBlock := bytes;
     PbTransaction := bytes;
     Unmarshal_Block := fun data =>
       match data with
       | [] => Err "proto: unexpected end of input"
       | _ => Ok data
       end;
     Unmarshal_Transaction := fun data =>
       match data with
       | [] => Err "proto: unexpected end of input"
       | _ => Ok data
       end |}.

Definition alice : Address lib := list_byte_of_string "alice".
Definition bob : Address lib := list_byte_of_string "bob".

Definition mkTx (nonce : N) (type : string) (value gasPrice gasLimit : N)
    : Transaction lib :=
  {| tx_chainID := 100%N; tx_from := alice; tx_to := bob; tx_value := value;
     tx_nonce := nonce; tx_timestamp := 1500000000%Z; tx_type := type;
     tx_payload := []; tx_gasPrice := gasPrice; tx_gasLimit := gasLimit;
     tx_sign := [] |}.

Definition hashOf (tx : Transaction lib) : bytes :=
  sha3 lib (FromUint64 lib (tx_nonce tx) ++ Address_Bytes lib (tx_from tx)).

(** Transactions of the tail block: one for which [FetchEvents] has a nil
    slice, an execution success, an execution failure, one with an event
    of another topic only, a contract deployment, and one for which
    [FetchEvents] has an empty slice that is not nil. *)
Definition txNoEvents : Transaction lib := mkTx 1 "binary" 10 1 20000.
Definition txSuccess : Transaction lib := mkTx 2 "binary" 10 1 20000.
Definition txFailed : Transaction lib := mkTx 3 "binary" 10 1 20000.
Definition txOtherTopic : Transaction lib := mkTx 4 "binary" 10 1 20000.
Definition txDeploy : Transaction lib := mkTx 5 "deploy" 0 1 20000.
Definition txEmptySlice : Transaction lib := mkTx 6 "binary" 10 1 20000.

Definition tailTxs : list (Transaction lib) :=
  [txNoEvents; txSuccess; txFailed; txOtherTopic; txDeploy; txEmptySlice].

Definition findTx (h : bytes) : option (Transaction lib) :=
  find (fun tx => bytes_eqb (hashOf tx) h) tailTxs.

Definition events (h : bytes) : option (list Event) * option error :=
  if bytes_eqb h (hashOf txSuccess) then
    (Some [ {| Topic := "chain.executeTxSuccess"; Event_Data := "{}" |} ],
     None)
  else if bytes_eqb h (hashOf txFailed) then
    (Some [ {| Topic := "chain.executeTxFailed"; Event_Data := "{}" |} ],
     None)
  else if bytes_eqb h (hashOf txOtherTopic) then
    (Some [ {| Topic := "chain.transferFromContract"; Event_Data := "{}" |} ],
     None)
  else if bytes_eqb h (hashOf txEmptySlice) then (Some [], None)
  else (None, None).

Definition mkBlock (height : N) (txs : list (Transaction lib)) : Block lib :=
  {| block_Hash := uint64Bytes height;
     block_ParentHash := uint64Bytes (height - 1);
     block_Height := height;
     block_Nonce := 0;
     block_Coinbase := bob;
     block_Miner := bob;
     block_Timestamp := 1500000000%Z;
     block_ChainID := 100;
     block_StateRoot := [];
     block_TxsRoot := [];
     block_EventsRoot := [];
     block_DposContext :=
       {| dpos_DynastyRoot := []; dpos_NextDynastyRoot := [];
          dpos_DelegateRoot := []; dpos_CandidateRoot := [];
          dpos_VoteRoot := []; dpos_MintCntRoot := [] |};
     block_Transactions := txs;
     GetBalance := fun addr => if bytes_eqb addr alice then 1000%N else 0%N;
     GetNonce := fun addr => if bytes_eqb addr alice then 5%N else 0%N;
     FetchEvents := events;
     block_GetTransaction := fun h => (findTx h, None) |}.

Definition genesis : Block lib := mkBlock 1 [].
Definition tail : Block lib := mkBlock 2 tailTxs.

Definition node : Neblet lib :=
  {| ChainID := 100;
     TailBlock := tail;
     GetBlock := fun h =>
       if bytes_eqb h (block_Hash tail) then Some tail
       else if bytes_eqb h (block_Hash genesis) then Some genesis
       else None;
     GetBlockOnCanonicalChainByHeight := fun height =>
       if (height =? 1)%N then Some genesis
       else if (height =? 2)%N then Some tail
       else None;
     LatestIrreversibleBlock := Some genesis;
     GetTransaction := findTx;
     EstimateGas := fun _ => Ok 20000%N;
     SignTransaction := fun addr tx =>
       if bytes_eqb addr alice then
         ({| tx_chainID := tx_chainID tx; tx_from := tx_from tx;
             tx_to := tx_to tx; tx_value := tx_value tx;
             tx_nonce := tx_nonce tx; tx_timestamp := tx_timestamp tx;
             tx_type := tx_type tx; tx_payload := tx_payload tx;
             tx_gasPrice := tx_gasPrice tx; tx_gasLimit := tx_gasLimit tx;
             tx_sign := hashOf tx |}, None)
       else (tx, Some "account is not found");
     PushAndBroadcast := fun _ => None;
     Transaction_Hash := hashOf;
     now := 1500000000%Z;
     Block_FromProto := fun _ => Ok tail;
     Transaction_FromProto := fun _ => Ok txSuccess;
     Marshal_Block := fun _ => Ok "{block}";
     Marshal_Transaction := fun _ => Ok "{transaction}" |}.

(** A transfer request from [alice] to [bob] with the next nonce. *)
Definition transfer : TransactionRequest :=
  {| From := "alice"; To := "bob"; Value := "10"; Nonce := 6;
     GasPrice := "1"; GasLimit := "20000";
     Contract := None; Candidate := None; Delegate := None |}.

(** The same transfer with numeric strings that are not decimal. *)
Definition malformedTransfer : TransactionRequest :=
  withAmounts transfer "12abc" "" "-1".

(** A request that populates Source and Function of its contract group,
    and the candidate and delegate groups as well. *)
Definition deployAndCall : TransactionRequest :=
  {| From := "alice"; To := "alice"; Value := "0"; Nonce := 6;
     GasPrice := "1"; GasLimit := "20000";
     Contract := Some {| Source := "module.exports = {}";
                         SourceType := "js";
                         Function := "init";
                         Args := "[]" |};
     Candidate := Some {| Candidate_Action := "login" |};
     Delegate := Some {| Delegate_Action := "do"; Delegatee := "bob" |} |}.

(** The transaction [sendTransaction] hands to the pool for
    [deployAndCall]: the one built from the request, signed. *)
Definition signedDeploy : Transaction lib :=
  match parseTransaction node deployAndCall with
  | Ok tx => fst (SignTransaction node (tx_from tx) tx)
  | Err _ => txDeploy
  end.

(** [transfer] with the nonce the sender already has in the tail block. *)
Definition staleTransfer : TransactionRequest :=
  {| From := "alice"; To := "bob"; Value := "10"; Nonce := 5;
     GasPrice := "1"; GasLimit := "20000";
     Contract := None; Candidate := None; Delegate := None |}.

(** The request of the receipt of a transaction, by the string form of its
    hash. *)
Definition receiptOf (tx : Transaction lib) : GetTransactionByHashRequest :=
  {| ByHash_TxHash := Hash_String lib (hashOf tx) |}.

(** A subscription to one topic, and what the session receives: a
    new-block announcement whose forwarding fails on the outbound stream,
    then a chain event. *)
Definition subscription : SubscribeRequest :=
  {| Subscribe_Topic := ["chain.newTailBlock"] |}.

Definition announcement : Message :=
  {| MessageType := "newblock"; Message_Data := uint64Bytes 3 |}.

Definition chainEvent : Event :=
  {| Topic := "chain.newTailBlock"; Event_Data := "{}" |}.

Definition afterFailedSend : list Arrival :=
  [ FromNetEventCh announcement (Some "rpc error: transport is closing");
    FromChainEventCh chainEvent None ].

(** A node that decodes every raw transaction to [signedDeploy]; the rest
    is [node]. *)
Definition rawNode : Neblet lib :=
  {| ChainID := ChainID node;
     TailBlock := TailBlock node;
     GetBlock := GetBlock node;
     GetBlockOnCanonicalChainByHeight := GetBlockOnCanonicalChainByHeight node;
     LatestIrreversibleBlock := LatestIrreversibleBlock node;
     GetTransaction := GetTransaction node;
     EstimateGas := EstimateGas node;
     SignTransaction := SignTransaction node;
     PushAndBroadcast := PushAndBroadcast node;
     Transaction_Hash := Transaction_Hash node;
     now := now node;
     Block_FromProto := Block_FromProto node;
     Transaction_FromProto := fun _ => Ok signedDeploy;
     Marshal_Block := Marshal_Block node;
     Marshal_Transaction := Marshal_Transaction node |}.

(** A request from an address the sample account manager does not hold. *)
Definition unsignable : TransactionRequest :=
  {| From := "bob"; To := "alice"; Value := "1"; Nonce := 1;
     GasPrice := "1"; GasLimit := "20000";
     Contract := None; Candidate := None; Delegate := None |}.

(** The dry-run of the sample chain: the payload type it was asked to run. *)
Definition dryRun (tx : Transaction lib) : result string :=
  Ok (tx_type tx).

(** Raw bytes the sample decoder accepts, and a request without sender
    or receiver. *)
Definition rawSubmission : SendRawTransactionRequest :=
  {| Raw_Data := [x01] |}.

Definition noSender : TransactionRequest :=
  {| From := ""; To := ""; Value := "1"; Nonce := 6;
     GasPrice := "1"; GasLimit := "20000";
     Contract := None; Candidate := None; Delegate := None |}.

(** A tail block whose event lookup fails, and a node on it. *)
Definition faultyTail : Block lib :=
  {| block_Hash := block_Hash tail;
     block_ParentHash := block_ParentHash tail;
     block_Height := block_Height tail;
     block_Nonce := block_Nonce tail;
     block_Coinbase := block_Coinbase tail;
     block_Miner := block_Miner tail;
     block_Timestamp := block_Timestamp tail;
     block_ChainID := block_ChainID tail;
     block_StateRoot := block_StateRoot tail;
     block_TxsRoot := block_TxsRoot tail;
     block_EventsRoot := block_EventsRoot tail;
     block_DposContext := block_DposContext tail;
     block_Transactions := block_Transactions tail;
     GetBalance := GetBalance tail;
     GetNonce := GetNonce tail;
     FetchEvents := fun _ => (None, Some "trie: storage failure");
     block_GetTransaction := block_GetTransaction tail |}.

Definition faultyNode : Neblet lib :=
  {| ChainID := ChainID node;
     TailBlock := faultyTail;
     GetBlock := GetBlock node;
     GetBlockOnCanonicalChainByHeight := GetBlockOnCanonicalChainByHeight node;
     LatestIrreversibleBlock := LatestIrreversibleBlock node;
     GetTransaction := GetTransaction node;
     EstimateGas := EstimateGas node;
     SignTransaction := SignTransaction node;
     PushAndBroadcast := PushAndBroadcast node;
     Transaction_Hash := Transaction_Hash node;
     now := now node;
     Block_FromProto := Block_FromProto node;
     Transaction_FromProto := Transaction_FromProto node;
     Marshal_Block := Marshal_Block node;
     Marshal_Transaction := Marshal_Transaction node |}.

(** The request for the events of a transaction, by the string form of
    its hash. *)
Definition eventsOf (tx : Transaction lib) : HashRequest :=
  {| HashRequest_Hash := Hash_String lib (hashOf tx) |}.

(** A new-block message with no data, and a chain event whose forwarding
    fails. *)
Definition emptyAnnouncement : Message :=
  {| MessageType := "newblock"; Message_Data := [] |}.

Definition failedForward : list Arrival :=
  [ FromChainEventCh chainEvent (Some "rpc error: transport is closing") ].

End Sample.

(** ** Properties of the handlers *)

(** Unfolds the writer monad so that a handler reduces to its branches. *)
Ltac run_handler := unfold bind, call, ret; simpl.

Section Properties.

Variable L : CoreLib.
Variable neb : Neblet L.

(** *** Submission *)

(** C1.  A SendTransaction request whose nonce is less than or equal to the
    sender's current nonce in the tail block fails with the nonce error;
    the only recorded calls are the two metrics marks, so neither the
    signer nor the transaction pool is invoked. *)
Theorem SendTransaction_nonce_too_low :
  forall (req : TransactionRequest) (addr : Address L),
    AddressParse L (From req) = Ok addr ->
    (Nonce req <= GetNonce (TailBlock neb) (Address_Bytes L addr))%N ->
    SendTransaction neb req
      = ((None, Some "nonce is invalid"),
         [Mark metricsRPCCounter; Mark metricsSendTxFailed])
    /\ (forall a tx,
          ~ In (CallSignTransaction a tx) (snd (SendTransaction neb req)))
    /\ (forall tx,
          ~ In (CallPushAndBroadcast tx) (snd (SendTransaction neb req))).
Proof.
  intros req addr Haddr Hnonce.
  assert (Hrun : SendTransaction neb req
                 = ((None, Some "nonce is invalid"),
                    [Mark metricsRPCCounter; Mark metricsSendTxFailed])).
  { unfold SendTransaction, sendTransaction.
    rewrite Haddr.
    apply N.leb_le in Hnonce. rewrite Hnonce.
    reflexivity. }
  rewrite Hrun. simpl.
  repeat split; intros; intros [H | [H | []]]; discriminate H.
Qed.

(** *** Account state *)

(** C7.  For a valid address, a query with height 0 answers with the
    balance and nonce of the tail block; a query with a height above 0
    that the canonical chain does not resolve fails with "block not
    found". *)
Theorem GetAccountState_height :
  forall (req : GetAccountStateRequest) (addr : Address L),
    AddressParse L (AccountState_Address req) = Ok addr ->
    (AccountState_Height req = 0%N ->
       GetAccountState neb req
       = ((Some {| Balance :=
                     Uint128_String L
                       (GetBalance (TailBlock neb) (Address_Bytes L addr));
                   AccountState_Nonce :=
                     Sprintf_d
                       (GetNonce (TailBlock neb) (Address_Bytes L addr)) |},
           None),
          [Mark metricsRPCCounter; Mark metricsAccountStateSuccess]))
    /\ ((0 < AccountState_Height req)%N ->
        GetBlockOnCanonicalChainByHeight neb (AccountState_Height req) = None ->
        GetAccountState neb req
        = ((None, Some "block not found"),
           [Mark metricsRPCCounter; Mark metricsAccountStateFailed])).
Proof.
  intros req addr Haddr. split.
  - intros Hzero. unfold GetAccountState.
    rewrite Haddr, Hzero. reflexivity.
  - intros Hpos Hnone. unfold GetAccountState.
    rewrite Haddr.
    apply N.ltb_lt in Hpos. rewrite Hpos, Hnone. reflexivity.
Qed.

(** *** Gas *)

(** C8.  GetGasUsed resolves the transaction by the decoded hash first.
    When no transaction is found it fails with "transaction not found"
    and the estimator is not called; the estimator is called only on the
    transaction that was found, and a response is returned only with the
    estimator's result for it. *)
Theorem GetGasUsed_resolves_before_estimating :
  forall (req : HashRequest),
    (forall hash,
        FromHex L (HashRequest_Hash req) = (hash, None) ->
        GetTransaction neb hash = None ->
        GetGasUsed neb req
        = ((None, Some "transaction not found"), [Mark metricsRPCCounter]))
    /\ (forall tx,
          In (CallEstimateGas tx) (snd (GetGasUsed neb req)) ->
          exists hash,
            FromHex L (HashRequest_Hash req) = (hash, None)
            /\ GetTransaction neb hash = Some tx)
    /\ (forall resp,
          fst (fst (GetGasUsed neb req)) = Some resp ->
          exists hash tx gas,
            FromHex L (HashRequest_Hash req) = (hash, None)
            /\ GetTransaction neb hash = Some tx
            /\ EstimateGas neb tx = Ok gas
            /\ resp = {| Gas := Uint128_String L gas |})
    /\ (forall hash tx gas,
          FromHex L (HashRequest_Hash req) = (hash, None) ->
          GetTransaction neb hash = Some tx ->
          EstimateGas neb tx = Ok gas ->
          GetGasUsed neb req
          = ((Some {| Gas := Uint128_String L gas |}, None),
             [Mark metricsRPCCounter; CallEstimateGas tx])).
Proof.
  intros req. unfold GetGasUsed.
  destruct (FromHex L (HashRequest_Hash req)) as [hash [herr | ]] eqn:Hhex.
  - (* the hash does not decode *)
    run_handler. repeat split.
    + intros h Hh. discriminate Hh.
    + intros tx [H | []]. discriminate H.
    + intros resp H. discriminate H.
    + intros h tx gas Hh. discriminate Hh.
  - destruct (GetTransaction neb hash) as [tx | ] eqn:Htx.
    + destruct (EstimateGas neb tx) as [gas | err] eqn:Hgas;
        run_handler; repeat split.
      * intros h Hh Hnone. injection Hh as <-. congruence.
      * intros tx' [H | [H | []]]; [discriminate H | ].
        injection H as <-. exists hash. auto.
      * intros resp H. injection H as <-.
        exists hash, tx, gas. auto.
      * intros h tx' gas' Hh Htx' Hgas'. injection Hh as <-.
        rewrite Htx in Htx'. injection Htx' as <-.
        rewrite Hgas in Hgas'. injection Hgas' as <-. reflexivity.
      * intros h Hh Hnone. injection Hh as <-. congruence.
      * intros tx' [H | [H | []]]; [discriminate H | ].
        injection H as <-. exists hash. auto.
      * intros resp H. discriminate H.
      * intros h tx' gas' Hh Htx' Hgas'. injection Hh as <-.
        rewrite Htx in Htx'. injection Htx' as <-. congruence.
    + run_handler. repeat split.
      * intros tx [H | []]. discriminate H.
      * intros resp H. discriminate H.
      * intros h tx gas Hh Htx'. injection Hh as <-. congruence.
Qed.

(** *** Events by hash *)

(** C10.  When the tail block's lookup of the decoded hash succeeds with a
    nil transaction, GetEventsByHash returns a nil response and a nil
    error. *)
Theorem GetEventsByHash_nil_transaction :
  forall (req : HashRequest),
    block_GetTransaction (TailBlock neb)
      (fst (FromHex L (HashRequest_Hash req))) = (None, None) ->
    GetEventsByHash neb req = ((None, None), [Mark metricsRPCCounter]).
Proof.
  intros req Hnil. unfold GetEventsByHash.
  destruct (FromHex L (HashRequest_Hash req)) as [bhash herr].
  simpl in Hnil. rewrite Hnil. reflexivity.
Qed.

(** *** Transaction construction *)

Lemma length_pos_nonempty (s : string) :
  (0 <? String.length s)%nat = negb (s =? "")%string.
Proof. destruct s; reflexivity. Qed.

(** [parseTransaction] selects the payload by the precedence order. *)
Lemma parseTransaction_refines (req : TransactionRequest)
    (fromAddr toAddr : Address L) :
  AddressParse L (From req) = Ok fromAddr ->
  AddressParse L (To req) = Ok toAddr ->
  parseTransaction neb req
  = assemble neb req fromAddr toAddr (selectByPrecedence req).
Proof.
  intros Hfrom Hto.
  unfold parseTransaction, assemble, selectByPrecedence, deployPopulated,
    callPopulated, candidatePopulated, delegatePopulated, serialize.
  rewrite Hfrom, Hto.
  destruct (Contract req) as [c | ];
    [ rewrite !length_pos_nonempty;
      destruct (Source c =? "")%string; simpl;
      [ destruct (Function c =? "")%string; simpl | ] | ];
    destruct (Candidate req) as [cand | ];
    destruct (Delegate req) as [d | ]; simpl;
    repeat match goal with
           | |- context [DeployPayload_ToBytes L ?a ?b ?c] =>
               destruct (DeployPayload_ToBytes L a b c) as [? [? | ]]
           | |- context [CallPayload_ToBytes L ?a ?b] =>
               destruct (CallPayload_ToBytes L a b) as [? [? | ]]
           | |- context [CandidatePayload_ToBytes L ?a] =>
               destruct (CandidatePayload_ToBytes L a) as [? [? | ]]
           | |- context [DelegatePayload_ToBytes L ?a ?b] =>
               destruct (DelegatePayload_ToBytes L a b) as [? [? | ]]
           end;
    reflexivity.
Qed.

(** C2.  With both addresses well formed, [parseTransaction] builds the
    transaction of the variant chosen by the precedence deploy > call >
    candidate > delegate > plain transfer.  In particular a request with a
    non-empty Source and a non-empty Function is given the Deploy type and
    the serialized deploy payload, and never the Call type; a request with
    no group populated is given the Binary type and no payload. *)
Theorem parseTransaction_payload_precedence :
  forall (req : TransactionRequest) (fromAddr toAddr : Address L),
    AddressParse L (From req) = Ok fromAddr ->
    AddressParse L (To req) = Ok toAddr ->
    parseTransaction neb req
    = assemble neb req fromAddr toAddr (selectByPrecedence req)
    /\ (deployPopulated req = true ->
        callPopulated req = true ->
        parseTransaction neb req = assemble neb req fromAddr toAddr VDeploy
        /\ forall tx,
             parseTransaction neb req = Ok tx ->
             tx_type tx = TxPayloadDeployType L
             /\ tx_payload tx = fst (serialize L VDeploy req)
             /\ (TxPayloadDeployType L <> TxPayloadCallType L ->
                 tx_type tx <> TxPayloadCallType L))
    /\ (deployPopulated req = false ->
        callPopulated req = false ->
        candidatePopulated req = false ->
        delegatePopulated req = false ->
        parseTransaction neb req
        = Ok (NewTransaction neb (ChainID neb) fromAddr toAddr
                (NewUint128FromString L (Value req)) (Nonce req)
                (TxPayloadBinaryType L) []
                (NewUint128FromString L (GasPrice req))
                (NewUint128FromString L (GasLimit req)))).
Proof.
  intros req fromAddr toAddr Hfrom Hto.
  pose proof (parseTransaction_refines req Hfrom Hto) as Href.
  split; [exact Href | split].
  - intros Hdeploy _.
    assert (Hsel : selectByPrecedence req = VDeploy)
      by (unfold selectByPrecedence; rewrite Hdeploy; reflexivity).
    rewrite Hsel in Href. split; [exact Href | ].
    intros tx Htx. rewrite Href in Htx. unfold assemble in Htx.
    destruct (serialize L VDeploy req) as [payload [err | ]];
      [discriminate Htx | ].
    injection Htx as <-. simpl.
    repeat split. intros Hneq. exact Hneq.
  - intros Hdeploy Hcall Hcand Hdel.
    rewrite Href. unfold selectByPrecedence.
    rewrite Hdeploy, Hcall, Hcand, Hdel.
    unfold assemble, serialize.
    destruct (Contract req), (Candidate req), (Delegate req); reflexivity.
Qed.

(** The outcome of [parseTransaction] on a request whose addresses parse
    is the outcome of serializing the selected payload. *)
Lemma parseTransaction_error_sources (req : TransactionRequest) :
  parseTransaction neb req
  = match AddressParse L (From req), AddressParse L (To req) with
    | Err err, _ => Err err
    | Ok _, Err err => Err err
    | Ok fromAddr, Ok toAddr =>
        assemble neb req fromAddr toAddr (selectByPrecedence req)
    end.
Proof.
  destruct (AddressParse L (From req)) as [fromAddr | err] eqn:Hfrom.
  - destruct (AddressParse L (To req)) as [toAddr | err] eqn:Hto.
    + apply parseTransaction_refines; assumption.
    + unfold parseTransaction. rewrite Hfrom, Hto. reflexivity.
  - unfold parseTransaction. rewrite Hfrom. reflexivity.
Qed.

(** C5 (as the code has it).  The three numeric strings never make
    transaction construction fail.  [parseTransaction] fails exactly when
    the sender address does not parse, or else the receiver address does
    not parse, or else the selected payload does not serialize, with the
    error of that step; so replacing the numeric strings by any strings,
    well formed or not, leaves every error unchanged and a request that
    could be built can still be built.  The transaction that is built is
    [core.NewTransaction] of the results of [util.NewUint128FromString]
    on the three strings, whatever they are. *)
Theorem parseTransaction_amounts_never_fail :
  forall (req : TransactionRequest) (value gasPrice gasLimit : string),
    (forall err,
        parseTransaction neb req = Err err
        <-> (AddressParse L (From req) = Err err
             \/ (exists fromAddr,
                    AddressParse L (From req) = Ok fromAddr
                    /\ AddressParse L (To req) = Err err)
             \/ (exists fromAddr toAddr payload,
                    AddressParse L (From req) = Ok fromAddr
                    /\ AddressParse L (To req) = Ok toAddr
                    /\ serialize L (selectByPrecedence req) req
                       = (payload, Some err))))
    /\ (forall err,
          parseTransaction neb (withAmounts req value gasPrice gasLimit)
            = Err err
          <-> parseTransaction neb req = Err err)
    /\ (forall fromAddr toAddr payload,
          AddressParse L (From req) = Ok fromAddr ->
          AddressParse L (To req) = Ok toAddr ->
          serialize L (selectByPrecedence req) req = (payload, None) ->
          parseTransaction neb (withAmounts req value gasPrice gasLimit)
          = Ok (NewTransaction neb (ChainID neb) fromAddr toAddr
                  (NewUint128FromString L value) (Nonce req)
                  (typeTag L (selectByPrecedence req)) payload
                  (NewUint128FromString L gasPrice)
                  (NewUint128FromString L gasLimit)))
    /\ (forall tx,
          parseTransaction neb req = Ok tx ->
          exists fromAddr toAddr payload,
            AddressParse L (From req) = Ok fromAddr
            /\ AddressParse L (To req) = Ok toAddr
            /\ serialize L (selectByPrecedence req) req = (payload, None)
            /\ tx = NewTransaction neb (ChainID neb) fromAddr toAddr
                      (NewUint128FromString L (Value req)) (Nonce req)
                      (typeTag L (selectByPrecedence req)) payload
                      (NewUint128FromString L (GasPrice req))
                      (NewUint128FromString L (GasLimit req))).
Proof.
  intros req value gasPrice gasLimit.
  assert (Hsel : selectByPrecedence (withAmounts req value gasPrice gasLimit)
                 = selectByPrecedence req) by reflexivity.
  assert (Hser : serialize L (selectByPrecedence req)
                   (withAmounts req value gasPrice gasLimit)
                 = serialize L (selectByPrecedence req) req) by reflexivity.
  rewrite !parseTransaction_error_sources. simpl From. simpl To.
  unfold assemble. rewrite Hsel, Hser.
  destruct (AddressParse L (From req)) as [fromAddr | e1].
  2:{ split; [ | split; [ | split ] ].
      - intros err. split.
        + intros H. injection H as <-. left. reflexivity.
        + intros [H | [(a & H & _) | (a & b & p & H & _)]];
            [injection H as <-; reflexivity
            | discriminate H | discriminate H].
      - intros err. reflexivity.
      - intros a b p H. discriminate H.
      - intros tx H. discriminate H. }
  destruct (AddressParse L (To req)) as [toAddr | e2].
  2:{ split; [ | split; [ | split ] ].
      - intros err. split.
        + intros H. injection H as <-. right. left.
          exists fromAddr. split; reflexivity.
        + intros [H | [(a & _ & H) | (a & b & p & _ & H & _)]];
            [discriminate H
            | injection H as <-; reflexivity | discriminate H].
      - intros err. reflexivity.
      - intros a b p _ H. discriminate H.
      - intros tx H. discriminate H. }
  destruct (serialize L (selectByPrecedence req) req) as [payload [e | ]].
  - split; [ | split; [ | split ] ].
    + intros err. split.
      * intros H. injection H as <-. right. right.
        exists fromAddr, toAddr, payload. repeat split.
      * intros [H | [(a & _ & H) | (a & b & p & _ & _ & H)]];
          [discriminate H | discriminate H | ].
        injection H as _ <-. reflexivity.
    + intros err. reflexivity.
    + intros a b p _ _ H. discriminate H.
    + intros tx H. discriminate H.
  - split; [ | split; [ | split ] ].
    + intros err. split.
      * intros H. discriminate H.
      * intros [H | [(a & _ & H) | (a & b & p & _ & _ & H)]];
          discriminate H.
    + intros err. split; intros H; discriminate H.
    + intros a b p Ha Hb Hp.
      injection Ha as <-. injection Hb as <-. injection Hp as <-.
      reflexivity.
    + intros tx H. injection H as <-.
      exists fromAddr, toAddr, payload. repeat split.
Qed.

(** *** Receipts *)

(** The loop stops at the first deciding event; with none, the status it
    was given comes back. *)
Lemma rangeEvents_first_match (events : list Event) (status : N) :
  rangeEvents L events status
  = match find (decides L) events with
    | Some v =>
        if (Topic v =? TopicExecuteTxSuccess L)%string then StatusSuccess
        else StatusFailed
    | None => status
    end.
Proof.
  induction events as [ | v events IH]; simpl; [reflexivity | ].
  unfold decides at 1.
  destruct (Topic v =? TopicExecuteTxSuccess L)%string eqn:Hsuccess; simpl;
    [rewrite Hsuccess; reflexivity | ].
  destruct (Topic v =? TopicExecuteTxFailed L)%string; simpl;
    [rewrite Hsuccess; reflexivity | exact IH].
Qed.

(** X23.  The status of every receipt that is returned: 2 when the
    event lookup gave a nil slice; otherwise 1 or 0 as the first event
    with an execution topic is a success or a failure, and 0 when the
    slice has no such event. *)
Lemma toTransactionResponse_status (tx : Transaction L)
    (resp : TransactionResponse) :
  toTransactionResponse neb tx = (Some resp, None) ->
  Tx_Status resp
  = match fst (FetchEvents (TailBlock neb) (Transaction_Hash neb tx)) with
    | None => StatusPending
    | Some events =>
        match find (decides L) events with
        | Some v =>
            if (Topic v =? TopicExecuteTxSuccess L)%string then StatusSuccess
            else StatusFailed
        | None => StatusFailed
        end
    end.
Proof.
  unfold toTransactionResponse.
  destruct (FetchEvents (TailBlock neb) (Transaction_Hash neb tx))
    as [events ferr]; simpl.
  destruct (tx_type tx =? TxPayloadDeployType L)%string.
  - destruct (GenerateContractAddress tx) as [contractAddr [err | ]];
      intros H; [discriminate H | ].
    injection H as <-. simpl.
    destruct events as [events | ]; [ | reflexivity].
    apply rangeEvents_first_match.
  - intros H. injection H as <-. simpl.
    destruct events as [events | ]; [ | reflexivity].
    apply rangeEvents_first_match.
Qed.


(** A successful [sendTransaction] signed one transaction, pushed the
    signed transaction, and answers from the pushed transaction. *)
Lemma sendTransaction_success (req : TransactionRequest)
    (resp : SendTransactionResponse) (log : list (Effect L)) :
  sendTransaction neb req = ((Some resp, None), log) ->
  exists tx0 tx,
    parseTransaction neb req = Ok tx0
    /\ SignTransaction neb (tx_from tx0) tx0 = (tx, None)
    /\ PushAndBroadcast neb tx = None
    /\ log = [CallSignTransaction (tx_from tx0) tx0;
              CallPushAndBroadcast tx; Mark metricsSendTxSuccess]
    /\ Txhash resp = Hash_String L (Transaction_Hash neb tx)
    /\ SendTx_ContractAddress resp
       = if (tx_type tx =? TxPayloadDeployType L)%string
         then derivedContractAddress L (tx_from tx) (tx_nonce tx)
         else "".
Proof.
  unfold sendTransaction.
  destruct (AddressParse L (From req)) as [addr | err];
    [ | run_handler; intros H; discriminate H].
  destruct (Nonce req <=? GetNonce (TailBlock neb) (Address_Bytes L addr))%N;
    [run_handler; intros H; discriminate H | ].
  destruct (parseTransaction neb req) as [tx0 | err];
    [ | run_handler; intros H; discriminate H].
  destruct (SignTransaction neb (tx_from tx0) tx0) as [tx [serr | ]] eqn:Hsign;
    [run_handler; intros H; discriminate H | ].
  destruct (PushAndBroadcast neb tx) as [perr | ] eqn:Hpush;
    [run_handler; intros H; discriminate H | ].
  unfold derivedContractAddress, Sha3256. simpl concat. rewrite app_nil_r.
  destruct (tx_type tx =? TxPayloadDeployType L)%string eqn:Htype.
  - destruct (NewContractAddressFromHash L
                (sha3 L (Address_Bytes L (tx_from tx)
                         ++ FromUint64 L (tx_nonce tx))))
      as [address aerr] eqn:Haddr.
    run_handler. intros H. injection H as <- <-.
    exists tx0, tx. rewrite Htype, Haddr. repeat split; auto.
  - run_handler. intros H. injection H as <- <-.
    exists tx0, tx. rewrite Htype. repeat split; auto.
Qed.


(** *** Blocks *)

(** Whatever the block and the flag, the formatted block has no
    transaction in it. *)
Lemma toBlockResponse_transactions (block : Block L) (fullTransaction : bool) :
  exists resp,
    toBlockResponse neb (Some block) fullTransaction = (Some resp, None)
    /\ Block_Transactions resp = [].
Proof.
  unfold toBlockResponse. eexists. split; reflexivity.
Qed.

(** *** Subscriptions *)

Lemma rangeTopics_log (f : string -> Effect L) (topics : list string) :
  rangeTopics f topics = (tt, map f topics).
Proof.
  induction topics as [ | v topics IH]; simpl; [reflexivity | ].
  rewrite IH. reflexivity.
Qed.

(** The loop only writes to the outbound stream. *)
Lemma streamLoop_sends (arrivals : list Arrival) :
  Forall (@isSend L) (snd (streamLoop neb arrivals)).
Proof.
  induction arrivals as [ | a arrivals IH]; simpl; [constructor | ].
  destruct a as [event sendErr | event sendErr].
  - destruct sendErr as [err | ]; run_handler.
    + repeat constructor.
    + destruct (streamLoop neb arrivals) as [r log]. simpl in *.
      constructor; [exact I | exact IH].
  - destruct (MessageType event =? MessageTypeNewBlock L)%string.
    + destruct (Unmarshal_Block L (Message_Data event)) as [pb | e];
        [ | constructor].
      destruct (Block_FromProto neb pb) as [b | e]; [ | constructor].
      destruct (Marshal_Block neb b) as [js | e]; [ | constructor].
      run_handler.
      destruct (streamLoop neb arrivals) as [r log]. simpl in *.
      constructor; [exact I | exact IH].
    + destruct (MessageType event =? MessageTypeNewTx L)%string;
        [ | exact IH].
      destruct (Unmarshal_Transaction L (Message_Data event)) as [pb | e];
        [ | constructor].
      destruct (Transaction_FromProto neb pb) as [t | e]; [ | constructor].
      destruct (Marshal_Transaction neb t) as [js | e]; [ | constructor].
      run_handler.
      destruct (streamLoop neb arrivals) as [r log]. simpl in *.
      constructor; [exact I | exact IH].
Qed.

(** X24.  A session that closes has made its registrations, then only
    sends, then each deregistration once: the two message kinds, then
    every requested topic. *)
Lemma Subscribe_closed_deregisters (req : SubscribeRequest)
    (arrivals : list Arrival) (err : error) (log : list (Effect L)) :
  Subscribe neb req arrivals = (Closed err, log) ->
  exists sends,
    streamLoop neb arrivals = (Some err, sends)
    /\ Forall (@isSend L) sends
    /\ log = [Mark metricsRPCCounter]
             ++ map EmitterRegister (Subscribe_Topic req)
             ++ [NetRegister (MessageTypeNewBlock L);
                 NetRegister (MessageTypeNewTx L)]
             ++ sends
             ++ [NetDeregister (MessageTypeNewTx L);
                 NetDeregister (MessageTypeNewBlock L)]
             ++ map EmitterDeregister (Subscribe_Topic req).
Proof.
  unfold Subscribe. rewrite !rangeTopics_log.
  pose proof (streamLoop_sends arrivals) as Hsends.
  destruct (streamLoop neb arrivals) as [[e | ] sends]; run_handler.
  - intros H. injection H as <- <-.
    exists sends. repeat split; [exact Hsends | ].
    rewrite app_nil_r. reflexivity.
  - intros H. discriminate H.
Qed.

(** A failed send of a chain event closes the session at once. *)
Lemma streamLoop_chain_send_failure (event : Event) (err : error)
    (arrivals : list Arrival) :
  streamLoop neb (FromChainEventCh event (Some err) :: arrivals)
  = (Some err,
     [StreamSend {| MsgType := Topic event; Data := Event_Data event |}]).
Proof. reflexivity. Qed.

(** The result of sending a network message is not looked at. *)
Lemma streamLoop_net_send_result_unread (event : Message)
    (sendErr : option error) (arrivals : list Arrival) :
  streamLoop neb (FromNetEventCh event sendErr :: arrivals)
  = streamLoop neb (FromNetEventCh event None :: arrivals).
Proof. reflexivity. Qed.

End Properties.

(** ** Runs on the concrete node *)

(** C3.  On the concrete node the tail block has, for [txEmptySlice], an
    empty event slice that is not nil, and for [txOtherTopic] one event of
    another topic: no execution event in either case, and the receipt of
    each has the status "failed", not "pending". *)
Theorem receipt_status_without_execution_event :
  FetchEvents (TailBlock Sample.node)
    (Transaction_Hash Sample.node Sample.txEmptySlice) = (Some [], None)
  /\ option_map Tx_Status
       (fst (fst (GetTransactionReceipt Sample.node
                    (Sample.receiptOf Sample.txEmptySlice))))
     = Some StatusFailed
  /\ (exists events,
        FetchEvents (TailBlock Sample.node)
          (Transaction_Hash Sample.node Sample.txOtherTopic)
        = (Some events, None)
        /\ find (decides Sample.lib) events = None)
  /\ option_map Tx_Status
       (fst (fst (GetTransactionReceipt Sample.node
                    (Sample.receiptOf Sample.txOtherTopic))))
     = Some StatusFailed.
Proof.
  split; [vm_compute; reflexivity | ].
  split; [vm_compute; reflexivity | ].
  split; [ | vm_compute; reflexivity].
  eexists. split; vm_compute; reflexivity.
Qed.

(** C4.  On the concrete node the tail block, at height 2, has six
    transactions; the block formatted by GetBlockByHeight has none, with
    the full-transaction flag and without it. *)
Theorem block_response_without_transactions :
  GetBlockOnCanonicalChainByHeight Sample.node 2 = Some Sample.tail
  /\ length (block_Transactions Sample.tail) = 6%nat
  /\ option_map Block_Transactions
       (fst (fst (GetBlockByHeight Sample.node
                    {| ByHeight_Height := 2;
                       ByHeight_FullTransaction := true |})))
     = Some []
  /\ option_map Block_Transactions
       (fst (fst (GetBlockByHeight Sample.node
                    {| ByHeight_Height := 2;
                       ByHeight_FullTransaction := false |})))
     = Some [].
Proof. repeat split. Qed.

(** C9.  On the concrete node, a session whose forwarding of a new-block
    announcement fails on the outbound stream is still streaming
    afterwards: it forwards the chain event that arrives next, and no
    deregistration has been made. *)
Theorem Subscribe_streams_after_failed_send :
  Subscribe Sample.node Sample.subscription
    [ FromNetEventCh Sample.announcement
        (Some "rpc error: transport is closing");
      FromChainEventCh Sample.chainEvent None ]
  = (Streaming,
     [ Mark metricsRPCCounter;
       EmitterRegister "chain.newTailBlock";
       NetRegister "newblock";
       NetRegister "newtx";
       StreamSend {| MsgType := "newblock"; Data := "{block}" |};
       StreamSend {| MsgType := "chain.newTailBlock"; Data := "{}" |} ]).
Proof. reflexivity. Qed.

(** C5, as stated, fails: a transfer whose value, gas price and gas limit
    are not decimal strings is constructed; [parseTransaction] returns a
    transaction for it and no error. *)
Lemma malformed_amounts_are_accepted :
  Sample.isDecimal (Value Sample.malformedTransfer) = false
  /\ Sample.isDecimal (GasPrice Sample.malformedTransfer) = false
  /\ Sample.isDecimal (GasLimit Sample.malformedTransfer) = false
  /\ (exists tx,
        parseTransaction Sample.node Sample.malformedTransfer = Ok tx)
  /\ (forall err,
        parseTransaction Sample.node Sample.malformedTransfer <> Err err).
Proof.
  repeat split.
  - eexists. reflexivity.
  - intros err H. vm_compute in H. discriminate H.
Qed.

(** *** Instances of the theorems *)

Lemma SendTransaction_nonce_too_low_witness :
  AddressParse Sample.lib (From Sample.staleTransfer) = Ok Sample.alice
  /\ (Nonce Sample.staleTransfer
      <= GetNonce (TailBlock Sample.node)
           (Address_Bytes Sample.lib Sample.alice))%N
  /\ SendTransaction Sample.node Sample.staleTransfer
     = ((None, Some "nonce is invalid"),
        [Mark metricsRPCCounter; Mark metricsSendTxFailed]).
Proof.
  assert (Haddr : AddressParse Sample.lib (From Sample.staleTransfer)
                  = Ok Sample.alice) by reflexivity.
  assert (Hnonce : (Nonce Sample.staleTransfer
                    <= GetNonce (TailBlock Sample.node)
                         (Address_Bytes Sample.lib Sample.alice))%N)
    by (vm_compute; discriminate).
  split; [exact Haddr | split; [exact Hnonce | ] ].
  exact (proj1 (SendTransaction_nonce_too_low Sample.node
                  Sample.staleTransfer Haddr Hnonce)).
Defined.

Lemma parseTransaction_payload_precedence_witness :
  deployPopulated Sample.deployAndCall = true
  /\ callPopulated Sample.deployAndCall = true
  /\ forall tx,
       parseTransaction Sample.node Sample.deployAndCall = Ok tx ->
       tx_type tx = "deploy" /\ tx_type tx <> "call".
Proof.
  assert (Hfrom : AddressParse Sample.lib (From Sample.deployAndCall)
                  = Ok Sample.alice) by reflexivity.
  assert (Hto : AddressParse Sample.lib (To Sample.deployAndCall)
                = Ok Sample.alice) by reflexivity.
  assert (Hdeploy : deployPopulated Sample.deployAndCall = true)
    by reflexivity.
  assert (Hcall : callPopulated Sample.deployAndCall = true) by reflexivity.
  split; [exact Hdeploy | split; [exact Hcall | ] ].
  intros tx Htx.
  destruct (proj1 (proj2 (parseTransaction_payload_precedence Sample.node
                            Sample.deployAndCall Hfrom Hto)) Hdeploy Hcall)
    as [_ Hall].
  destruct (Hall tx Htx) as (Htype & _ & Hnever).
  split; [exact Htype | ].
  apply Hnever. simpl. discriminate.
Defined.

Lemma parseTransaction_amounts_never_fail_witness :
  AddressParse Sample.lib (From Sample.transfer) = Ok Sample.alice
  /\ AddressParse Sample.lib (To Sample.transfer) = Ok Sample.bob
  /\ serialize Sample.lib (selectByPrecedence Sample.transfer)
       Sample.transfer = ([], None)
  /\ parseTransaction Sample.node Sample.malformedTransfer
     = Ok (NewTransaction Sample.node (ChainID Sample.node)
             Sample.alice Sample.bob
             (NewUint128FromString Sample.lib "12abc")
             (Nonce Sample.transfer)
             (typeTag Sample.lib (selectByPrecedence Sample.transfer)) []
             (NewUint128FromString Sample.lib "")
             (NewUint128FromString Sample.lib "-1"))
  /\ (forall err,
        parseTransaction Sample.node Sample.malformedTransfer = Err err
        <-> parseTransaction Sample.node Sample.transfer = Err err).
Proof.
  assert (Hfrom : AddressParse Sample.lib (From Sample.transfer)
                  = Ok Sample.alice) by reflexivity.
  assert (Hto : AddressParse Sample.lib (To Sample.transfer)
                = Ok Sample.bob) by reflexivity.
  assert (Hser : serialize Sample.lib (selectByPrecedence Sample.transfer)
                   Sample.transfer = ([], None)) by reflexivity.
  split; [exact Hfrom | split; [exact Hto | split; [exact Hser | split] ] ].
  - exact (proj1 (proj2 (proj2 (parseTransaction_amounts_never_fail
                                  Sample.node Sample.transfer
                                  "12abc" "" "-1")))
             Sample.alice Sample.bob [] Hfrom Hto Hser).
  - exact (proj1 (proj2 (parseTransaction_amounts_never_fail Sample.node
                           Sample.transfer "12abc" "" "-1"))).
Defined.


Lemma GetAccountState_height_witness :
  AddressParse Sample.lib "alice" = Ok Sample.alice
  /\ GetAccountState Sample.node
       {| AccountState_Address := "alice"; AccountState_Height := 0 |}
     = ((Some {| Balance := "1000"; AccountState_Nonce := "5" |}, None),
        [Mark metricsRPCCounter; Mark metricsAccountStateSuccess])
  /\ (0 < 9)%N
  /\ GetBlockOnCanonicalChainByHeight Sample.node 9 = None
  /\ GetAccountState Sample.node
       {| AccountState_Address := "alice"; AccountState_Height := 9 |}
     = ((None, Some "block not found"),
        [Mark metricsRPCCounter; Mark metricsAccountStateFailed]).
Proof.
  assert (Haddr : AddressParse Sample.lib "alice" = Ok Sample.alice)
    by reflexivity.
  assert (Hpos : (0 < 9)%N) by lia.
  assert (Hnone : GetBlockOnCanonicalChainByHeight Sample.node 9 = None)
    by reflexivity.
  split; [exact Haddr | ].
  split.
  - exact (proj1 (GetAccountState_height Sample.node
                    {| AccountState_Address := "alice";
                       AccountState_Height := 0 |} Haddr) eq_refl).
  - split; [exact Hpos | split; [exact Hnone | ] ].
    exact (proj2 (GetAccountState_height Sample.node
                    {| AccountState_Address := "alice";
                       AccountState_Height := 9 |} Haddr) Hpos Hnone).
Defined.

Lemma GetGasUsed_resolves_before_estimating_witness :
  GetTransaction Sample.node (list_byte_of_string "abcd") = None
  /\ GetGasUsed Sample.node {| HashRequest_Hash := "abcd" |}
     = ((None, Some "transaction not found"), [Mark metricsRPCCounter])
  /\ GetGasUsed Sample.node
       {| HashRequest_Hash :=
            Hash_String Sample.lib (Sample.hashOf Sample.txSuccess) |}
     = ((Some {| Gas := "20000" |}, None),
        [Mark metricsRPCCounter; CallEstimateGas Sample.txSuccess]).
Proof.
  assert (Hnone : GetTransaction Sample.node (list_byte_of_string "abcd")
                  = None) by reflexivity.
  split; [exact Hnone | split].
  - exact (proj1 (GetGasUsed_resolves_before_estimating Sample.node
                    {| HashRequest_Hash := "abcd" |})
             (list_byte_of_string "abcd") eq_refl Hnone).
  - exact (proj2 (proj2 (proj2
             (GetGasUsed_resolves_before_estimating Sample.node
                {| HashRequest_Hash :=
                     Hash_String Sample.lib
                       (Sample.hashOf Sample.txSuccess) |})))
             (Sample.hashOf Sample.txSuccess) Sample.txSuccess 20000%N
             eq_refl eq_refl eq_refl).
Defined.

Lemma GetEventsByHash_nil_transaction_witness :
  block_GetTransaction (TailBlock Sample.node)
    (fst (FromHex Sample.lib "abcd")) = (None, None)
  /\ GetEventsByHash Sample.node {| HashRequest_Hash := "abcd" |}
     = ((None, None), [Mark metricsRPCCounter]).
Proof.
  assert (Hnil : block_GetTransaction (TailBlock Sample.node)
                   (fst (FromHex Sample.lib "abcd")) = (None, None))
    by reflexivity.
  split; [exact Hnil | ].
  exact (GetEventsByHash_nil_transaction Sample.node
           {| HashRequest_Hash := "abcd" |} Hnil).
Defined.

(** ** Further properties of the handlers *)

Section Submission.

Variable L : CoreLib.
Variable neb : Neblet L.

(** X1.  Whatever [sendTransaction] asks the signer to sign is the
    transaction built from the request, under its own sender address, and
    whatever it pushes to the pool is that transaction as the signer
    returned it without error; both only for a sender whose nonce in the
    tail block is below the request's. *)
Theorem sendTransaction_signs_then_pushes :
  forall (req : TransactionRequest),
    (forall a tx0,
        In (CallSignTransaction a tx0) (snd (sendTransaction neb req)) ->
        exists addr,
          AddressParse L (From req) = Ok addr
          /\ (GetNonce (TailBlock neb) (Address_Bytes L addr) < Nonce req)%N
          /\ parseTransaction neb req = Ok tx0
          /\ a = tx_from tx0)
    /\ (forall tx,
          In (CallPushAndBroadcast tx) (snd (sendTransaction neb req)) ->
          exists tx0,
            parseTransaction neb req = Ok tx0
            /\ In (CallSignTransaction (tx_from tx0) tx0)
                 (snd (sendTransaction neb req))
            /\ SignTransaction neb (tx_from tx0) tx0 = (tx, None)).
Proof.
  intros req. unfold sendTransaction.
  destruct (AddressParse L (From req)) as [addr | err];
    [ | run_handler; split; intros; intuition discriminate].
  destruct (Nonce req <=? GetNonce (TailBlock neb) (Address_Bytes L addr))%N
    eqn:Hnonce;
    [run_handler; split; intros; intuition discriminate | ].
  apply N.leb_gt in Hnonce.
  destruct (parseTransaction neb req) as [tx0 | err];
    [ | run_handler; split; intros; intuition discriminate].
  destruct (SignTransaction neb (tx_from tx0) tx0) as [tx [serr | ]] eqn:Hsign.
  { run_handler. split.
    - intros a t [H | [H | []]]; [ | discriminate H].
      injection H as <- <-. exists addr. auto.
    - intros t [H | [H | []]]; discriminate H. }
  destruct (PushAndBroadcast neb tx) as [perr | ].
  - run_handler. split.
    + intros a t [H | [H | [H | []]]]; try discriminate H.
      injection H as <- <-. exists addr. auto.
    + intros t [H | [H | [H | []]]]; try discriminate H.
      injection H as <-. exists tx0. auto.
  - destruct (tx_type tx =? TxPayloadDeployType L)%string;
      [destruct (NewContractAddressFromHash L _) as [address aerr] | ];
      run_handler; split.
    + intros a t [H | [H | [H | []]]]; try discriminate H.
      injection H as <- <-. exists addr. auto.
    + intros t [H | [H | [H | []]]]; try discriminate H.
      injection H as <-. exists tx0. auto.
    + intros a t [H | [H | [H | []]]]; try discriminate H.
      injection H as <- <-. exists addr. auto.
    + intros t [H | [H | [H | []]]]; try discriminate H.
      injection H as <-. exists tx0. auto.
Qed.

(** X2.  [sendTransaction] returns either a response or an error, never
    both and never neither, and marks the matching counter and not the
    other one. *)
Theorem sendTransaction_outcome_and_counter :
  forall (req : TransactionRequest),
    (exists resp,
        fst (sendTransaction neb req) = (Some resp, None)
        /\ In (Mark metricsSendTxSuccess) (snd (sendTransaction neb req))
        /\ ~ In (Mark metricsSendTxFailed) (snd (sendTransaction neb req)))
    \/ (exists err,
          fst (sendTransaction neb req) = (None, Some err)
          /\ In (Mark metricsSendTxFailed) (snd (sendTransaction neb req))
          /\ ~ In (Mark metricsSendTxSuccess) (snd (sendTransaction neb req))).
Proof.
  intros req. unfold sendTransaction.
  destruct (AddressParse L (From req)) as [addr | err].
  2:{ right. exists err. run_handler. intuition discriminate. }
  destruct (Nonce req <=? GetNonce (TailBlock neb) (Address_Bytes L addr))%N.
  { right. eexists. run_handler. intuition discriminate. }
  destruct (parseTransaction neb req) as [tx0 | err].
  2:{ right. exists err. run_handler. intuition discriminate. }
  destruct (SignTransaction neb (tx_from tx0) tx0) as [tx [serr | ]].
  { right. exists serr. run_handler. intuition discriminate. }
  destruct (PushAndBroadcast neb tx) as [perr | ].
  { right. exists perr. run_handler. intuition discriminate. }
  left.
  destruct (tx_type tx =? TxPayloadDeployType L)%string;
    [destruct (NewContractAddressFromHash L _) as [address aerr] | ];
    eexists; run_handler; intuition discriminate.
Qed.

(** A successful [SendRawTransaction] decoded a transaction and pushed it. *)
Lemma SendRawTransaction_success_inv (req : SendRawTransactionRequest)
    (resp : SendTransactionResponse) (log : list (Effect L)) :
  SendRawTransaction neb req = ((Some resp, None), log) ->
  exists pbTx tx,
    Unmarshal_Transaction L (Raw_Data req) = Ok pbTx
    /\ Transaction_FromProto neb pbTx = Ok tx
    /\ PushAndBroadcast neb tx = None
    /\ log = [Mark metricsRPCCounter; CallPushAndBroadcast tx;
              Mark metricsSendRawTxSuccess]
    /\ Txhash resp = Hash_String L (Transaction_Hash neb tx)
    /\ SendTx_ContractAddress resp
       = if (tx_type tx =? TxPayloadDeployType L)%string
         then derivedContractAddress L (tx_from tx) (tx_nonce tx)
         else "".
Proof.
  unfold SendRawTransaction.
  destruct (Unmarshal_Transaction L (Raw_Data req)) as [pbTx | err];
    [ | run_handler; intros H; discriminate H].
  destruct (Transaction_FromProto neb pbTx) as [tx | err] eqn:Hproto;
    [ | run_handler; intros H; discriminate H].
  destruct (PushAndBroadcast neb tx) as [perr | ] eqn:Hpush;
    [run_handler; intros H; discriminate H | ].
  unfold derivedContractAddress, Sha3256. simpl concat. rewrite app_nil_r.
  destruct (tx_type tx =? TxPayloadDeployType L)%string eqn:Htype.
  - destruct (NewContractAddressFromHash L
                (sha3 L (Address_Bytes L (tx_from tx)
                         ++ FromUint64 L (tx_nonce tx))))
      as [address aerr] eqn:Haddr.
    run_handler. intros H. injection H as <- <-.
    exists pbTx, tx. rewrite Htype, Haddr. repeat split; auto.
  - run_handler. intros H. injection H as <- <-.
    exists pbTx, tx. rewrite Htype. repeat split; auto.
Qed.

(** X3.  A raw submission succeeds exactly when the bytes decode to a
    transaction that the pool accepts.  It has then pushed that
    transaction, and nothing else, between the request counter and the
    success counter, and answers with the string of its hash and, for a
    Deploy transaction, the contract address derived from its sender and
    nonce (empty otherwise). *)
Theorem SendRawTransaction_success :
  forall (req : SendRawTransactionRequest) (resp : SendTransactionResponse)
         (log : list (Effect L)),
    SendRawTransaction neb req = ((Some resp, None), log)
    <-> exists pbTx tx,
          Unmarshal_Transaction L (Raw_Data req) = Ok pbTx
          /\ Transaction_FromProto neb pbTx = Ok tx
          /\ PushAndBroadcast neb tx = None
          /\ log = [Mark metricsRPCCounter; CallPushAndBroadcast tx;
                    Mark metricsSendRawTxSuccess]
          /\ resp
             = {| Txhash := Hash_String L (Transaction_Hash neb tx);
                  SendTx_ContractAddress :=
                    if (tx_type tx =? TxPayloadDeployType L)%string
                    then derivedContractAddress L (tx_from tx) (tx_nonce tx)
                    else "" |}.
Proof.
  intros req resp log. split.
  - intros Hrun.
    destruct (SendRawTransaction_success_inv _ Hrun)
      as (pbTx & tx & Hun & Hproto & Hpush & Hlog & Hhash & Haddr).
    exists pbTx, tx. repeat split; try assumption.
    destruct resp as [h a]. simpl in Hhash, Haddr. subst h a. reflexivity.
  - intros (pbTx & tx & Hun & Hproto & Hpush & -> & ->).
    unfold SendRawTransaction. rewrite Hun, Hproto, Hpush.
    unfold derivedContractAddress, Sha3256. simpl concat. rewrite app_nil_r.
    destruct (tx_type tx =? TxPayloadDeployType L)%string; [ | reflexivity].
    destruct (NewContractAddressFromHash L
                (sha3 L (Address_Bytes L (tx_from tx)
                         ++ FromUint64 L (tx_nonce tx))))
      as [address aerr].
    reflexivity.
Qed.

(** X4.  [SendRawTransaction] never asks the signer for anything, and
    pushes nothing but a transaction it decoded from the request; raw
    bytes that do not decode are answered with the decoding error and the
    failure counter, the pool untouched. *)
Theorem SendRawTransaction_never_signs :
  forall (req : SendRawTransactionRequest),
    (forall a tx,
        ~ In (CallSignTransaction a tx) (snd (SendRawTransaction neb req)))
    /\ (forall tx,
          In (CallPushAndBroadcast tx) (snd (SendRawTransaction neb req)) ->
          exists pbTx,
            Unmarshal_Transaction L (Raw_Data req) = Ok pbTx
            /\ Transaction_FromProto neb pbTx = Ok tx)
    /\ (forall err,
          Unmarshal_Transaction L (Raw_Data req) = Err err ->
          SendRawTransaction neb req
          = ((None, Some err),
             [Mark metricsRPCCounter; Mark metricsSendRawTxFailed]))
    /\ (forall pbTx err,
          Unmarshal_Transaction L (Raw_Data req) = Ok pbTx ->
          Transaction_FromProto neb pbTx = Err err ->
          SendRawTransaction neb req
          = ((None, Some err),
             [Mark metricsRPCCounter; Mark metricsSendRawTxFailed])).
Proof.
  intros req. unfold SendRawTransaction.
  destruct (Unmarshal_Transaction L (Raw_Data req)) as [pbTx | err].
  2:{ run_handler. repeat split.
      - intros a tx [H | [H | []]]; discriminate H.
      - intros tx [H | [H | []]]; discriminate H.
      - intros e H. injection H as <-. reflexivity.
      - intros pb e H. discriminate H. }
  destruct (Transaction_FromProto neb pbTx) as [tx | err] eqn:Hproto.
  2:{ run_handler. repeat split.
      - intros a tx [H | [H | []]]; discriminate H.
      - intros tx [H | [H | []]]; discriminate H.
      - intros e H. discriminate H.
      - intros pb e H H'. injection H as <-.
        rewrite Hproto in H'. injection H' as <-. reflexivity. }
  assert (Hdec : forall pb e,
             Ok pbTx = Ok pb -> Transaction_FromProto neb pb = Err e -> False).
  { intros pb e H H'. injection H as <-. congruence. }
  destruct (PushAndBroadcast neb tx) as [perr | ];
    [ | destruct (tx_type tx =? TxPayloadDeployType L)%string;
        [destruct (NewContractAddressFromHash L _) as [address aerr] | ] ];
    run_handler; repeat split;
    try (intros a t [H | [H | [H | []]]]; discriminate H);
    try (intros t [H | [H | [H | []]]]; try discriminate H;
         injection H as <-; exists pbTx; auto);
    try (intros e H; discriminate H);
    try (intros pb e H H'; exfalso; exact (Hdec pb e H H')).
Qed.

(** X5.  When [sendTransaction] has pushed a transaction and a raw
    submission decodes to that same transaction, the two answers, where
    both are given, are equal: same hash string, same contract address. *)
Theorem raw_and_signed_submission_agree :
  forall (req : TransactionRequest) (resp : SendTransactionResponse)
         (log : list (Effect L)) (tx : Transaction L)
         (raw : SendRawTransactionRequest) (pbTx : PbTransaction L)
         (resp' : SendTransactionResponse) (log' : list (Effect L)),
    sendTransaction neb req = ((Some resp, None), log) ->
    In (CallPushAndBroadcast tx) log ->
    Unmarshal_Transaction L (Raw_Data raw) = Ok pbTx ->
    Transaction_FromProto neb pbTx = Ok tx ->
    SendRawTransaction neb raw = ((Some resp', None), log') ->
    resp' = resp.
Proof.
  intros req resp log tx raw pbTx resp' log' Hsend Hin Hun Hproto Hraw.
  destruct (sendTransaction_success neb req Hsend)
    as (tx0 & tx1 & _ & _ & _ & Hlog & Hhash & Haddr).
  subst log.
  destruct Hin as [H | [H | [H | []]]]; try discriminate H.
  injection H as ->.
  destruct (SendRawTransaction_success_inv _ Hraw)
    as (pb & tx2 & Hun' & Hproto' & _ & _ & Hhash' & Haddr').
  rewrite Hun in Hun'. injection Hun' as <-.
  rewrite Hproto in Hproto'. injection Hproto' as <-.
  destruct resp as [h a], resp' as [h' a']. simpl in *.
  congruence.
Qed.

(** X6.  The gas-estimation handler is a dry run: it never signs and
    never pushes; a request that cannot be built is answered with the
    construction error before the estimator is called; the estimator is
    called on the transaction built from the request, and a response
    carries the estimator's result for it. *)
Theorem EstimateGasHandler_dry_run :
  forall (req : TransactionRequest),
    (forall e, In e (snd (EstimateGasHandler neb req)) ->
               ~ touchesSignerOrPool e)
    /\ (forall err,
          parseTransaction neb req = Err err ->
          EstimateGasHandler neb req
          = ((None, Some err), [Mark metricsRPCCounter]))
    /\ (forall tx,
          In (CallEstimateGas tx) (snd (EstimateGasHandler neb req)) ->
          parseTransaction neb req = Ok tx)
    /\ (forall resp,
          fst (fst (EstimateGasHandler neb req)) = Some resp ->
          exists tx gas,
            parseTransaction neb req = Ok tx
            /\ EstimateGas neb tx = Ok gas
            /\ resp = {| Gas := Uint128_String L gas |}).
Proof.
  intros req. unfold EstimateGasHandler.
  destruct (parseTransaction neb req) as [tx | err].
  - destruct (EstimateGas neb tx) as [gas | err] eqn:Hgas;
      run_handler; repeat split.
    + intros e [H | [H | []]]; subst e; simpl; auto.
    + intros e H. discriminate H.
    + intros t [H | [H | []]]; [discriminate H | ].
      injection H as <-. reflexivity.
    + intros resp H. injection H as <-. exists tx, gas. auto.
    + intros e [H | [H | []]]; subst e; simpl; auto.
    + intros e H. discriminate H.
    + intros t [H | [H | []]]; [discriminate H | ].
      injection H as <-. reflexivity.
    + intros resp H. discriminate H.
  - run_handler. repeat split.
    + intros e [H | []]; subst e; simpl; auto.
    + intros e H. injection H as <-. reflexivity.
    + intros t [H | []]. discriminate H.
    + intros resp H. discriminate H.
Qed.

Variable BlockChain_Call : Transaction L -> result string.

(** X7.  [Call] is read-only: whatever the request, the only recorded
    call is the request counter, so nothing is signed, pushed or counted
    as a failure; it answers with the construction error when the request
    cannot be built, and otherwise with what the chain's dry run returns
    for the transaction built from the request. *)
Theorem Call_read_only :
  forall (req : TransactionRequest),
    snd (Call neb BlockChain_Call req) = [Mark metricsRPCCounter]
    /\ (forall err,
          parseTransaction neb req = Err err ->
          fst (Call neb BlockChain_Call req) = (None, Some err))
    /\ (forall tx result,
          parseTransaction neb req = Ok tx ->
          BlockChain_Call tx = Ok result ->
          fst (Call neb BlockChain_Call req)
          = (Some {| Result := result |}, None))
    /\ (forall tx err,
          parseTransaction neb req = Ok tx ->
          BlockChain_Call tx = Err err ->
          fst (Call neb BlockChain_Call req) = (None, Some err)).
Proof.
  intros req. unfold Call.
  destruct (parseTransaction neb req) as [tx | err].
  - destruct (BlockChain_Call tx) as [result | err] eqn:Hcall;
      run_handler; repeat split;
      try (intros e H; discriminate H);
      intros t r H H'; injection H as <-; congruence.
  - run_handler. repeat split.
    + intros e H. injection H as <-. reflexivity.
    + intros t r H. discriminate H.
    + intros t r H. discriminate H.
Qed.

End Submission.

Section Queries.

Variable L : CoreLib.
Variable neb : Neblet L.

(** *** Blocks *)

(** X8.  The three block queries fail with "block not found" when the
    chain has no block for the key: an unknown hash, a height with no
    canonical block (height 0 included, which is not read as the tail),
    no irreversible block.  A hash that does not decode is answered with
    the decoding error. *)
Theorem block_queries_not_found :
  (forall (req : GetBlockByHashRequest) bhash,
      FromHex L (ByHash_Hash req) = (bhash, None) ->
      GetBlock neb bhash = None ->
      GetBlockByHash neb req
      = ((None, Some "block not found"), [Mark metricsRPCCounter]))
  /\ (forall (req : GetBlockByHashRequest) bhash err,
        FromHex L (ByHash_Hash req) = (bhash, Some err) ->
        GetBlockByHash neb req
        = ((None, Some err), [Mark metricsRPCCounter]))
  /\ (forall (req : GetBlockByHeightRequest),
        GetBlockOnCanonicalChainByHeight neb (ByHeight_Height req) = None ->
        GetBlockByHeight neb req
        = ((None, Some "block not found"), [Mark metricsRPCCounter]))
  /\ (LatestIrreversibleBlock neb = None ->
      LatestIrreversibleBlockHandler neb
      = ((None, Some "block not found"), [Mark metricsRPCCounter])).
Proof.
  repeat split.
  - intros req bhash Hhex Hnone. unfold GetBlockByHash.
    rewrite Hhex. run_handler. rewrite Hnone. reflexivity.
  - intros req bhash err Hhex. unfold GetBlockByHash.
    rewrite Hhex. reflexivity.
  - intros req Hnone. unfold GetBlockByHeight.
    run_handler. rewrite Hnone. reflexivity.
  - intros Hnone. unfold LatestIrreversibleBlockHandler.
    run_handler. rewrite Hnone. reflexivity.
Qed.

(** X9.  A block reached by its hash and by its height, with the same
    full-transaction flag, is formatted to the same response, and so is
    the latest irreversible block against a request by height without the
    flag.  The response is returned without error and carries the block's
    height, the strings of its hashes and addresses, and the hex strings
    of the six roots of its consensus context. *)
Theorem block_queries_agree :
  forall (byHash : GetBlockByHashRequest) (byHeight : GetBlockByHeightRequest)
         (bhash : bytes) (block : Block L),
    FromHex L (ByHash_Hash byHash) = (bhash, None) ->
    GetBlock neb bhash = Some block ->
    GetBlockOnCanonicalChainByHeight neb (ByHeight_Height byHeight)
      = Some block ->
    (ByHash_FullTransaction byHash = ByHeight_FullTransaction byHeight ->
     GetBlockByHash neb byHash = GetBlockByHeight neb byHeight)
    /\ (LatestIrreversibleBlock neb = Some block ->
        ByHeight_FullTransaction byHeight = false ->
        LatestIrreversibleBlockHandler neb = GetBlockByHeight neb byHeight)
    /\ exists resp,
         GetBlockByHeight neb byHeight
           = ((Some resp, None), [Mark metricsRPCCounter])
         /\ Block_Height resp = block_Height block
         /\ Block_Hash resp = Hash_String L (block_Hash block)
         /\ Block_ParentHash resp = Hash_String L (block_ParentHash block)
         /\ Block_Coinbase resp = Address_String L (block_Coinbase block)
         /\ Block_Miner resp = Address_String L (block_Miner block)
         /\ Block_DposContext resp
            = Some {| DynastyRoot :=
                        Hex L (dpos_DynastyRoot (block_DposContext block));
                      NextDynastyRoot :=
                        Hex L (dpos_NextDynastyRoot (block_DposContext block));
                      DelegateRoot :=
                        Hex L (dpos_DelegateRoot (block_DposContext block));
                      CandidateRoot :=
                        Hex L (dpos_CandidateRoot (block_DposContext block));
                      VoteRoot :=
                        Hex L (dpos_VoteRoot (block_DposContext block));
                      MintCntRoot :=
                        Hex L (dpos_MintCntRoot (block_DposContext block)) |}.
Proof.
  intros byHash byHeight bhash block Hhex Hblock Hheight.
  unfold GetBlockByHash, GetBlockByHeight, LatestIrreversibleBlockHandler.
  rewrite Hhex, Hblock, Hheight. unfold bind, call, ret.
  split; [ | split].
  - intros ->. reflexivity.
  - intros Hlib Hflag. rewrite Hlib, Hflag. reflexivity.
  - eexists. repeat split.
Qed.

(** *** Receipts *)

(** X10.  [toTransactionResponse] gives a response or an error, never
    both and never neither.  It fails only for a Deploy transaction whose
    contract address cannot be derived, with the error of the derivation;
    a response repeats the transaction's chain id, nonce, timestamp, type
    and payload and the strings of its hash, addresses and amounts, and
    has an empty contract address unless the type is Deploy. *)
Theorem toTransactionResponse_outcome :
  forall (tx : Transaction L),
    (exists resp,
        toTransactionResponse neb tx = (Some resp, None)
        /\ Tx_ChainId resp = tx_chainID tx
        /\ Tx_Hash resp = Hash_String L (Transaction_Hash neb tx)
        /\ Tx_From resp = Address_String L (tx_from tx)
        /\ Tx_To resp = Address_String L (tx_to tx)
        /\ Tx_Value resp = Uint128_String L (tx_value tx)
        /\ Tx_Nonce resp = tx_nonce tx
        /\ Tx_Timestamp resp = tx_timestamp tx
        /\ Tx_Type resp = tx_type tx
        /\ Tx_Data resp = tx_payload tx
        /\ Tx_GasPrice resp = Uint128_String L (tx_gasPrice tx)
        /\ Tx_GasLimit resp = Uint128_String L (tx_gasLimit tx)
        /\ (tx_type tx <> TxPayloadDeployType L ->
            Tx_ContractAddress resp = ""))
    \/ (exists err,
          toTransactionResponse neb tx = (None, Some err)
          /\ tx_type tx = TxPayloadDeployType L
          /\ snd (GenerateContractAddress tx) = Some err).
Proof.
  intros tx. unfold toTransactionResponse.
  destruct (FetchEvents (TailBlock neb) (Transaction_Hash neb tx))
    as [events ferr].
  destruct (tx_type tx =? TxPayloadDeployType L)%string eqn:Htype.
  - apply String.eqb_eq in Htype.
    destruct (GenerateContractAddress tx) as [contractAddr [err | ]].
    + right. exists err. auto.
    + left. eexists. repeat split. intros Hneq. contradiction.
  - left. eexists. repeat split.
Qed.

(** X11.  For a hash that decodes and that the chain does not know, the
    receipt query and the gas-used query both fail with "transaction not
    found", having marked the request counter only.  The receipt query
    looks up the bytes the decoder returned even when the decoder also
    returned an error, and then answers with the receipt of what it
    found. *)
Theorem unknown_transaction_not_found :
  (forall (h : string) (bhash : bytes),
      FromHex L h = (bhash, None) ->
      GetTransaction neb bhash = None ->
      GetTransactionReceipt neb {| ByHash_TxHash := h |}
      = ((None, Some "transaction not found"), [Mark metricsRPCCounter])
      /\ GetGasUsed neb {| HashRequest_Hash := h |}
         = ((None, Some "transaction not found"), [Mark metricsRPCCounter]))
  /\ (forall (h : string) (bhash : bytes) (herr : option error)
             (tx : Transaction L),
        FromHex L h = (bhash, herr) ->
        GetTransaction neb bhash = Some tx ->
        GetTransactionReceipt neb {| ByHash_TxHash := h |}
        = (toTransactionResponse neb tx, [Mark metricsRPCCounter])).
Proof.
  split.
  - intros h bhash Hhex Hnone.
    unfold GetTransactionReceipt, GetGasUsed. simpl.
    rewrite Hhex. run_handler. rewrite Hnone. split; reflexivity.
  - intros h bhash herr tx Hhex Htx.
    unfold GetTransactionReceipt. simpl.
    rewrite Hhex. run_handler. rewrite Htx. reflexivity.
Qed.

(** *** Events by hash *)

(** X12.  When the tail block holds the transaction and its event lookup
    returns no error, [GetEventsByHash] answers with one wire event per
    stored event, in the stored order, each with the topic and data of
    its original; a nil slice of events gives a response with no event. *)
Theorem GetEventsByHash_lists_events :
  forall (req : HashRequest) (tx : Transaction L)
         (result : option (list Event)),
    block_GetTransaction (TailBlock neb)
      (fst (FromHex L (HashRequest_Hash req))) = (Some tx, None) ->
    FetchEvents (TailBlock neb) (Transaction_Hash neb tx) = (result, None) ->
    exists resp,
      GetEventsByHash neb req = ((Some resp, None), [Mark metricsRPCCounter])
      /\ map RpcEvent_Topic (Events resp)
         = map Topic (match result with Some l => l | None => [] end)
      /\ map RpcEvent_Data (Events resp)
         = map Event_Data (match result with Some l => l | None => [] end)
      /\ (result = None -> Events resp = []).
Proof.
  intros req tx result Htx Hevents. unfold GetEventsByHash.
  destruct (FromHex L (HashRequest_Hash req)) as [bhash herr].
  simpl in Htx. rewrite Htx, Hevents. run_handler.
  eexists. split; [reflexivity | ]. simpl.
  rewrite !map_map. simpl.
  repeat split. intros ->. reflexivity.
Qed.

(** X13.  [GetEventsByHash] returns the error of the tail block's
    transaction lookup whether or not a transaction came with it, and
    returns the error of the event lookup; the receipt of the same
    transaction ignores that event-lookup error and is still produced
    when the transaction is not a Deploy. *)
Theorem GetEventsByHash_errors :
  (forall (req : HashRequest) (found : option (Transaction L)) (err : error),
      block_GetTransaction (TailBlock neb)
        (fst (FromHex L (HashRequest_Hash req))) = (found, Some err) ->
      GetEventsByHash neb req = ((None, Some err), [Mark metricsRPCCounter]))
  /\ (forall (req : HashRequest) (tx : Transaction L)
             (result : option (list Event)) (err : error),
        block_GetTransaction (TailBlock neb)
          (fst (FromHex L (HashRequest_Hash req))) = (Some tx, None) ->
        FetchEvents (TailBlock neb) (Transaction_Hash neb tx)
          = (result, Some err) ->
        GetEventsByHash neb req
          = ((None, Some err), [Mark metricsRPCCounter])
        /\ (tx_type tx <> TxPayloadDeployType L ->
            exists resp, toTransactionResponse neb tx = (Some resp, None))).
Proof.
  split.
  - intros req found err Htx. unfold GetEventsByHash.
    destruct (FromHex L (HashRequest_Hash req)) as [bhash herr].
    simpl in Htx. rewrite Htx. destruct found; reflexivity.
  - intros req tx result err Htx Hevents. split.
    + unfold GetEventsByHash.
      destruct (FromHex L (HashRequest_Hash req)) as [bhash herr].
      simpl in Htx. rewrite Htx, Hevents. reflexivity.
    + intros Hneq. unfold toTransactionResponse. rewrite Hevents.
      apply String.eqb_neq in Hneq. rewrite Hneq.
      eexists. reflexivity.
Qed.

End Queries.

Section Streaming.

Variable L : CoreLib.
Variable neb : Neblet L.

(** One step of the loop on a network message, by the outcome of
    decoding it. *)
Lemma streamLoop_net_step (event : Message) (sendErr : option error)
    (arrivals : list Arrival) :
  streamLoop neb (FromNetEventCh event sendErr :: arrivals)
  = if (MessageType event =? MessageTypeNewBlock L)%string then
      match decodeBlockMessage neb (Message_Data event) with
      | Err err => (Some err, [])
      | Ok blockjson =>
          (fst (streamLoop neb arrivals),
           StreamSend {| MsgType := MessageType event; Data := blockjson |}
           :: snd (streamLoop neb arrivals))
      end
    else if (MessageType event =? MessageTypeNewTx L)%string then
      match decodeTxMessage neb (Message_Data event) with
      | Err err => (Some err, [])
      | Ok txjson =>
          (fst (streamLoop neb arrivals),
           StreamSend {| MsgType := MessageType event; Data := txjson |}
           :: snd (streamLoop neb arrivals))
      end
    else streamLoop neb arrivals.
Proof.
  simpl. unfold decodeBlockMessage, decodeTxMessage.
  destruct (MessageType event =? MessageTypeNewBlock L)%string.
  - destruct (Unmarshal_Block L (Message_Data event)) as [pb | e];
      [ | reflexivity].
    destruct (Block_FromProto neb pb) as [b | e]; [ | reflexivity].
    destruct (Marshal_Block neb b) as [js | e]; [ | reflexivity].
    unfold bind, call.
    destruct (streamLoop neb arrivals) as [r log]. reflexivity.
  - destruct (MessageType event =? MessageTypeNewTx L)%string;
      [ | reflexivity].
    destruct (Unmarshal_Transaction L (Message_Data event)) as [pb | e];
      [ | reflexivity].
    destruct (Transaction_FromProto neb pb) as [t | e]; [ | reflexivity].
    destruct (Marshal_Transaction neb t) as [js | e]; [ | reflexivity].
    unfold bind, call.
    destruct (streamLoop neb arrivals) as [r log]. reflexivity.
Qed.

(** One step of the loop on a chain event. *)
Lemma streamLoop_chain_step (event : Event) (sendErr : option error)
    (arrivals : list Arrival) :
  streamLoop neb (FromChainEventCh event sendErr :: arrivals)
  = match sendErr with
    | Some err =>
        (Some err,
         [StreamSend {| MsgType := Topic event; Data := Event_Data event |}])
    | None =>
        (fst (streamLoop neb arrivals),
         StreamSend {| MsgType := Topic event; Data := Event_Data event |}
         :: snd (streamLoop neb arrivals))
    end.
Proof.
  simpl. destruct sendErr as [err | ]; [reflexivity | ].
  unfold bind, call.
  destruct (streamLoop neb arrivals) as [r log]. reflexivity.
Qed.

(** Once the loop has returned an error, later arrivals change nothing. *)
Lemma streamLoop_closed_prefix (arrivals rest : list Arrival) (err : error) :
  fst (streamLoop neb arrivals) = Some err ->
  streamLoop neb (arrivals ++ rest) = streamLoop neb arrivals.
Proof.
  induction arrivals as [ | a arrivals IH]; [discriminate | ].
  rewrite <- app_comm_cons.
  destruct a as [event sendErr | event sendErr].
  - rewrite !streamLoop_chain_step.
    destruct sendErr as [e | ]; [reflexivity | ].
    simpl. intros H. rewrite (IH H). reflexivity.
  - rewrite !streamLoop_net_step.
    destruct (MessageType event =? MessageTypeNewBlock L)%string.
    + destruct (decodeBlockMessage neb (Message_Data event)); [ | reflexivity].
      simpl. intros H. rewrite (IH H). reflexivity.
    + destruct (MessageType event =? MessageTypeNewTx L)%string; [ | exact IH].
      destruct (decodeTxMessage neb (Message_Data event)); [ | reflexivity].
      simpl. intros H. rewrite (IH H). reflexivity.
Qed.

(** The log of a session, by the outcome of its loop. *)
Lemma Subscribe_log (req : SubscribeRequest) (arrivals : list Arrival) :
  Subscribe neb req arrivals
  = match fst (streamLoop neb arrivals) with
    | None =>
        (Streaming,
         [Mark metricsRPCCounter]
         ++ map EmitterRegister (Subscribe_Topic req)
         ++ [NetRegister (MessageTypeNewBlock L);
             NetRegister (MessageTypeNewTx L)]
         ++ snd (streamLoop neb arrivals))
    | Some err =>
        (Closed err,
         [Mark metricsRPCCounter]
         ++ map EmitterRegister (Subscribe_Topic req)
         ++ [NetRegister (MessageTypeNewBlock L);
             NetRegister (MessageTypeNewTx L)]
         ++ snd (streamLoop neb arrivals)
         ++ [NetDeregister (MessageTypeNewTx L);
             NetDeregister (MessageTypeNewBlock L)]
         ++ map EmitterDeregister (Subscribe_Topic req))
    end.
Proof.
  unfold Subscribe. rewrite !rangeTopics_log.
  destruct (streamLoop neb arrivals) as [[e | ] sends]; run_handler.
  - rewrite app_nil_r. reflexivity.
  - rewrite !app_nil_r. reflexivity.
Qed.

(** X14.  A session that is still streaming has deregistered nothing: its
    log is the request counter, the registration of every requested topic
    and of the two message kinds, and then writes to the outbound stream
    only. *)
Theorem Subscribe_streaming_keeps_registrations :
  forall (req : SubscribeRequest) (arrivals : list Arrival)
         (log : list (Effect L)),
    Subscribe neb req arrivals = (Streaming, log) ->
    (forall e, In e log -> ~ isDeregister e)
    /\ exists sends,
         Forall (@isSend L) sends
         /\ log = [Mark metricsRPCCounter]
                  ++ map EmitterRegister (Subscribe_Topic req)
                  ++ [NetRegister (MessageTypeNewBlock L);
                      NetRegister (MessageTypeNewTx L)]
                  ++ sends.
Proof.
  intros req arrivals log. rewrite Subscribe_log.
  pose proof (streamLoop_sends neb arrivals) as Hsends.
  destruct (streamLoop neb arrivals) as [[e | ] sends]; simpl;
    intros H; [discriminate H | ].
  injection H as <-. split.
  - intros e [He | He]; [subst e; simpl; auto | ].
    apply in_app_or in He. destruct He as [He | He].
    + apply in_map_iff in He. destruct He as (t & <- & _). simpl. auto.
    + destruct He as [He | [He | He]]; try (subst e; simpl; auto).
      simpl in Hsends. rewrite Forall_forall in Hsends.
      specialize (Hsends e He). destruct e; simpl in *; auto.
  - exists sends. split; [exact Hsends | reflexivity].
Qed.

(** X15.  A session that has closed stays closed with the same error and
    the same log whatever arrives afterwards: nothing that comes after
    the arrival that ended the loop is received or forwarded. *)
Theorem Subscribe_closed_is_final :
  forall (req : SubscribeRequest) (arrivals rest : list Arrival)
         (err : error) (log : list (Effect L)),
    Subscribe neb req arrivals = (Closed err, log) ->
    Subscribe neb req (arrivals ++ rest) = (Closed err, log).
Proof.
  intros req arrivals rest err log. rewrite !Subscribe_log.
  destruct (fst (streamLoop neb arrivals)) as [e | ] eqn:Hloop;
    intros H; [ | discriminate H].
  rewrite (streamLoop_closed_prefix arrivals rest Hloop), Hloop.
  exact H.
Qed.

(** X16.  Chain events whose sends succeed are forwarded one for one, in
    the order they arrive, each with its topic as message type and its
    data unchanged, and the loop goes on. *)
Theorem chain_events_forwarded_in_order :
  forall (events : list Event),
    streamLoop neb (map (fun event => FromChainEventCh event None) events)
    = (None,
       map (fun event =>
              StreamSend {| MsgType := Topic event;
                            Data := Event_Data event |})
           events).
Proof.
  induction events as [ | event events IH]; [reflexivity | ].
  simpl map. rewrite streamLoop_chain_step, IH. reflexivity.
Qed.

(** X17.  A new-block or new-transaction message whose decoding fails, at
    any of its three steps, ends the loop with the decoding error and
    nothing is written to the stream for it; the session then closes
    with exactly the registrations and the deregistrations in its log. *)
Theorem decode_failure_closes_session :
  forall (event : Message) (sendErr : option error) (rest : list Arrival)
         (err : error),
    (MessageType event = MessageTypeNewBlock L
     /\ decodeBlockMessage neb (Message_Data event) = Err err)
    \/ (MessageType event <> MessageTypeNewBlock L
        /\ MessageType event = MessageTypeNewTx L
        /\ decodeTxMessage neb (Message_Data event) = Err err) ->
    streamLoop neb (FromNetEventCh event sendErr :: rest) = (Some err, [])
    /\ forall req,
         Subscribe neb req (FromNetEventCh event sendErr :: rest)
         = (Closed err,
            [Mark metricsRPCCounter]
            ++ map EmitterRegister (Subscribe_Topic req)
            ++ [NetRegister (MessageTypeNewBlock L);
                NetRegister (MessageTypeNewTx L)]
            ++ [NetDeregister (MessageTypeNewTx L);
                NetDeregister (MessageTypeNewBlock L)]
            ++ map EmitterDeregister (Subscribe_Topic req)).
Proof.
  intros event sendErr rest err Hfail.
  assert (Hloop : streamLoop neb (FromNetEventCh event sendErr :: rest)
                  = (Some err, [])).
  { rewrite streamLoop_net_step.
    destruct Hfail as [[Htype Hdec] | (Hnot & Htype & Hdec)].
    - apply String.eqb_eq in Htype. rewrite Htype, Hdec. reflexivity.
    - apply String.eqb_neq in Hnot. apply String.eqb_eq in Htype.
      rewrite Hnot, Htype, Hdec. reflexivity. }
  split; [exact Hloop | ].
  intros req. rewrite Subscribe_log, Hloop. reflexivity.
Qed.

(** X18.  A new-block or new-transaction message that decodes, and whose
    send succeeds, is forwarded with its message kind and the JSON text of
    the decoded object, and the loop goes on to the next arrival; a
    message of any other kind is dropped without a write. *)
Theorem network_message_forwarding :
  forall (event : Message) (rest : list Arrival),
    (forall json,
        (MessageType event = MessageTypeNewBlock L
         /\ decodeBlockMessage neb (Message_Data event) = Ok json)
        \/ (MessageType event <> MessageTypeNewBlock L
            /\ MessageType event = MessageTypeNewTx L
            /\ decodeTxMessage neb (Message_Data event) = Ok json) ->
        streamLoop neb (FromNetEventCh event None :: rest)
        = (fst (streamLoop neb rest),
           StreamSend {| MsgType := MessageType event; Data := json |}
           :: snd (streamLoop neb rest)))
    /\ (forall sendErr,
          MessageType event <> MessageTypeNewBlock L ->
          MessageType event <> MessageTypeNewTx L ->
          streamLoop neb (FromNetEventCh event sendErr :: rest)
          = streamLoop neb rest).
Proof.
  intros event rest. split.
  - intros json [[Htype Hdec] | (Hnot & Htype & Hdec)];
      rewrite streamLoop_net_step.
    + apply String.eqb_eq in Htype. rewrite Htype, Hdec. reflexivity.
    + apply String.eqb_neq in Hnot. apply String.eqb_eq in Htype.
      rewrite Hnot, Htype, Hdec. reflexivity.
  - intros sendErr Hblock Htx. rewrite streamLoop_net_step.
    apply String.eqb_neq in Hblock. apply String.eqb_neq in Htx.
    rewrite Hblock, Htx. reflexivity.
Qed.

End Streaming.

Section Construction.

Variable L : CoreLib.
Variable neb : Neblet L.

(** X19.  A transaction built by [parseTransaction] has the two parsed
    addresses of the request as sender and receiver, the request's nonce,
    the node's chain id, the type tag of the payload group selected by
    precedence and that group's serialized bytes. *)
Theorem parseTransaction_built_fields :
  forall (req : TransactionRequest) (tx : Transaction L),
    parseTransaction neb req = Ok tx ->
    exists fromAddr toAddr,
      AddressParse L (From req) = Ok fromAddr
      /\ AddressParse L (To req) = Ok toAddr
      /\ tx_from tx = fromAddr
      /\ tx_to tx = toAddr
      /\ tx_nonce tx = Nonce req
      /\ tx_chainID tx = ChainID neb
      /\ tx_type tx = typeTag L (selectByPrecedence req)
      /\ serialize L (selectByPrecedence req) req = (tx_payload tx, None).
Proof.
  intros req tx. rewrite parseTransaction_error_sources.
  destruct (AddressParse L (From req)) as [fromAddr | e1];
    [ | intros H; discriminate H].
  destruct (AddressParse L (To req)) as [toAddr | e2];
    [ | intros H; discriminate H].
  unfold assemble.
  destruct (serialize L (selectByPrecedence req) req) as [payload [e | ]];
    intros H; [discriminate H | ].
  injection H as <-. exists fromAddr, toAddr. simpl. repeat split.
Qed.

(** X20.  [parseTransaction] reports the first failure in a fixed order:
    the sender address, then the receiver address, then the serialization
    of the selected payload; a later failure never hides an earlier
    one. *)
Theorem parseTransaction_error_order :
  forall (req : TransactionRequest),
    (forall err,
        AddressParse L (From req) = Err err ->
        parseTransaction neb req = Err err)
    /\ (forall fromAddr err,
          AddressParse L (From req) = Ok fromAddr ->
          AddressParse L (To req) = Err err ->
          parseTransaction neb req = Err err)
    /\ (forall fromAddr toAddr payload err,
          AddressParse L (From req) = Ok fromAddr ->
          AddressParse L (To req) = Ok toAddr ->
          serialize L (selectByPrecedence req) req = (payload, Some err) ->
          parseTransaction neb req = Err err).
Proof.
  intros req. rewrite parseTransaction_error_sources. repeat split.
  - intros err ->. reflexivity.
  - intros fromAddr err -> ->. reflexivity.
  - intros fromAddr toAddr payload err -> -> Hser.
    unfold assemble. rewrite Hser. reflexivity.
Qed.

(** X21.  Every rejection of [sendTransaction] with what it had done by
    then: a sender that does not parse and a transaction that cannot be
    built reach neither the signer nor the pool; a refused signature
    leaves the pool untouched; a refusal by the pool comes after the one
    signing.  Each marks the failure counter once and returns the error
    of the step that failed. *)
Theorem sendTransaction_rejections :
  forall (req : TransactionRequest),
    (forall err,
        AddressParse L (From req) = Err err ->
        sendTransaction neb req
        = ((None, Some err), [Mark metricsSendTxFailed]))
    /\ (forall addr,
          AddressParse L (From req) = Ok addr ->
          (GetNonce (TailBlock neb) (Address_Bytes L addr) < Nonce req)%N ->
          (forall err,
              parseTransaction neb req = Err err ->
              sendTransaction neb req
              = ((None, Some err), [Mark metricsSendTxFailed]))
          /\ (forall tx0 tx err,
                parseTransaction neb req = Ok tx0 ->
                SignTransaction neb (tx_from tx0) tx0 = (tx, Some err) ->
                sendTransaction neb req
                = ((None, Some err),
                   [CallSignTransaction (tx_from tx0) tx0;
                    Mark metricsSendTxFailed]))
          /\ (forall tx0 tx err,
                parseTransaction neb req = Ok tx0 ->
                SignTransaction neb (tx_from tx0) tx0 = (tx, None) ->
                PushAndBroadcast neb tx = Some err ->
                sendTransaction neb req
                = ((None, Some err),
                   [CallSignTransaction (tx_from tx0) tx0;
                    CallPushAndBroadcast tx;
                    Mark metricsSendTxFailed]))).
Proof.
  intros req. split.
  - intros err Haddr. unfold sendTransaction. rewrite Haddr. reflexivity.
  - intros addr Haddr Hnonce. apply N.leb_gt in Hnonce.
    unfold sendTransaction. rewrite Haddr, Hnonce. repeat split.
    + intros err ->. reflexivity.
    + intros tx0 tx err -> ->. reflexivity.
    + intros tx0 tx err -> -> ->. reflexivity.
Qed.

(** X22.  An account-state query with a height above 0 that the canonical
    chain resolves answers from the block at that height, not from the
    tail; a query whose address does not parse fails with the parse error
    and marks the failure counter. *)
Theorem GetAccountState_at_height :
  forall (req : GetAccountStateRequest),
    (forall err,
        AddressParse L (AccountState_Address req) = Err err ->
        GetAccountState neb req
        = ((None, Some err),
           [Mark metricsRPCCounter; Mark metricsAccountStateFailed]))
    /\ (forall addr block,
          AddressParse L (AccountState_Address req) = Ok addr ->
          (0 < AccountState_Height req)%N ->
          GetBlockOnCanonicalChainByHeight neb (AccountState_Height req)
            = Some block ->
          GetAccountState neb req
          = ((Some {| Balance :=
                        Uint128_String L
                          (GetBalance block (Address_Bytes L addr));
                      AccountState_Nonce :=
                        Sprintf_d (GetNonce block (Address_Bytes L addr)) |},
              None),
             [Mark metricsRPCCounter; Mark metricsAccountStateSuccess])).
Proof.
  intros req. split.
  - intros err Haddr. unfold GetAccountState. rewrite Haddr. reflexivity.
  - intros addr block Haddr Hpos Hblock. unfold GetAccountState.
    apply N.ltb_lt in Hpos. rewrite Haddr, Hpos, Hblock. reflexivity.
Qed.

End Construction.

(** ** Instances of the further properties on the concrete nodes *)

Lemma sendTransaction_signs_then_pushes_witness :
  In (CallPushAndBroadcast Sample.signedDeploy)
     (snd (sendTransaction Sample.node Sample.deployAndCall))
  /\ exists tx0,
       parseTransaction Sample.node Sample.deployAndCall = Ok tx0
       /\ In (CallSignTransaction (tx_from tx0) tx0)
            (snd (sendTransaction Sample.node Sample.deployAndCall))
       /\ SignTransaction Sample.node (tx_from tx0) tx0
          = (Sample.signedDeploy, None).
Proof.
  assert (Hin : In (CallPushAndBroadcast Sample.signedDeploy)
                   (snd (sendTransaction Sample.node Sample.deployAndCall)))
    by (right; left; reflexivity).
  split; [exact Hin | ].
  exact (proj2 (sendTransaction_signs_then_pushes Sample.node
                  Sample.deployAndCall) Sample.signedDeploy Hin).
Defined.

Lemma SendRawTransaction_success_witness :
  exists resp log,
    SendRawTransaction Sample.rawNode Sample.rawSubmission
      = ((Some resp, None), log)
    /\ exists pbTx tx,
         Unmarshal_Transaction Sample.lib (Raw_Data Sample.rawSubmission)
           = Ok pbTx
         /\ Transaction_FromProto Sample.rawNode pbTx = Ok tx
         /\ PushAndBroadcast Sample.rawNode tx = None
         /\ log = [Mark metricsRPCCounter; CallPushAndBroadcast tx;
                   Mark metricsSendRawTxSuccess]
         /\ resp
            = {| Txhash :=
                   Hash_String Sample.lib
                     (Transaction_Hash Sample.rawNode tx);
                 SendTx_ContractAddress :=
                   if (tx_type tx =? TxPayloadDeployType Sample.lib)%string
                   then derivedContractAddress Sample.lib (tx_from tx)
                          (tx_nonce tx)
                   else "" |}.
Proof.
  do 2 eexists.
  assert (Hrun : forall resp log,
             SendRawTransaction Sample.rawNode Sample.rawSubmission
               = ((Some resp, None), log) ->
             SendRawTransaction Sample.rawNode Sample.rawSubmission
               = ((Some resp, None), log)
             /\ _)
    by (intros resp log H; split;
        [exact H
        | exact (proj1 (SendRawTransaction_success Sample.rawNode
                          Sample.rawSubmission resp log) H)]).
  apply Hrun. vm_compute. reflexivity.
Defined.

Lemma SendRawTransaction_never_signs_witness :
  Unmarshal_Transaction Sample.lib [] = Err "proto: unexpected end of input"
  /\ SendRawTransaction Sample.node {| Raw_Data := [] |}
     = ((None, Some "proto: unexpected end of input"),
        [Mark metricsRPCCounter; Mark metricsSendRawTxFailed]).
Proof.
  assert (Hun : Unmarshal_Transaction Sample.lib
                  (Raw_Data {| Raw_Data := [] |})
                = Err "proto: unexpected end of input") by reflexivity.
  split; [exact Hun | ].
  exact (proj1 (proj2 (proj2 (SendRawTransaction_never_signs Sample.node
                                {| Raw_Data := [] |}))) _ Hun).
Defined.

Lemma raw_and_signed_submission_agree_witness :
  exists resp log resp' log',
    sendTransaction Sample.rawNode Sample.deployAndCall
      = ((Some resp, None), log)
    /\ In (CallPushAndBroadcast Sample.signedDeploy) log
    /\ Unmarshal_Transaction Sample.lib (Raw_Data Sample.rawSubmission)
       = Ok [x01]
    /\ Transaction_FromProto Sample.rawNode [x01] = Ok Sample.signedDeploy
    /\ SendRawTransaction Sample.rawNode Sample.rawSubmission
       = ((Some resp', None), log')
    /\ resp' = resp.
Proof.
  do 4 eexists.
  assert (Hun : Unmarshal_Transaction Sample.lib
                  (Raw_Data Sample.rawSubmission) = Ok [x01])
    by reflexivity.
  assert (Hproto : Transaction_FromProto Sample.rawNode [x01]
                   = Ok Sample.signedDeploy) by reflexivity.
  split; [vm_compute; reflexivity | ].
  split; [right; left; vm_compute; reflexivity | ].
  split; [exact Hun | ].
  split; [exact Hproto | ].
  split; [vm_compute; reflexivity | ].
  refine (@raw_and_signed_submission_agree Sample.lib Sample.rawNode
            Sample.deployAndCall _ _ Sample.signedDeploy Sample.rawSubmission
            [x01] _ _ _ _ Hun Hproto _).
  - vm_compute; reflexivity.
  - right; left; vm_compute; reflexivity.
  - vm_compute; reflexivity.
Defined.

Lemma EstimateGasHandler_dry_run_witness :
  parseTransaction Sample.node Sample.noSender
    = Err "address: invalid address"
  /\ EstimateGasHandler Sample.node Sample.noSender
     = ((None, Some "address: invalid address"), [Mark metricsRPCCounter])
  /\ fst (fst (EstimateGasHandler Sample.node Sample.transfer))
     = Some {| Gas := "20000" |}
  /\ exists tx gas,
       parseTransaction Sample.node Sample.transfer = Ok tx
       /\ EstimateGas Sample.node tx = Ok gas
       /\ {| Gas := "20000" |} = {| Gas := Uint128_String Sample.lib gas |}.
Proof.
  assert (Herr : parseTransaction Sample.node Sample.noSender
                 = Err "address: invalid address") by reflexivity.
  assert (Hresp : fst (fst (EstimateGasHandler Sample.node Sample.transfer))
                  = Some {| Gas := "20000" |}) by reflexivity.
  split; [exact Herr | split; [ | split; [exact Hresp | ] ] ].
  - exact (proj1 (proj2 (EstimateGasHandler_dry_run Sample.node
                           Sample.noSender)) _ Herr).
  - exact (proj2 (proj2 (proj2 (EstimateGasHandler_dry_run Sample.node
                                  Sample.transfer))) _ Hresp).
Defined.

Lemma Call_read_only_witness :
  exists tx,
    parseTransaction Sample.node Sample.transfer = Ok tx
    /\ Sample.dryRun tx = Ok "binary"
    /\ fst (Call Sample.node Sample.dryRun Sample.transfer)
       = (Some {| Result := "binary" |}, None).
Proof.
  eexists.
  assert (Hrun : forall tx,
             parseTransaction Sample.node Sample.transfer = Ok tx ->
             Sample.dryRun tx = Ok "binary" ->
             parseTransaction Sample.node Sample.transfer = Ok tx
             /\ Sample.dryRun tx = Ok "binary"
             /\ fst (Call Sample.node Sample.dryRun Sample.transfer)
                = (Some {| Result := "binary" |}, None)).
  { intros tx Htx Hdry. split; [exact Htx | split; [exact Hdry | ] ].
    exact (proj1 (proj2 (proj2 (Call_read_only Sample.node Sample.dryRun
                                  Sample.transfer))) tx "binary" Htx Hdry). }
  apply Hrun; reflexivity.
Defined.

Lemma block_queries_not_found_witness :
  GetBlockOnCanonicalChainByHeight Sample.node 0 = None
  /\ GetBlockByHeight Sample.node
       {| ByHeight_Height := 0; ByHeight_FullTransaction := false |}
     = ((None, Some "block not found"), [Mark metricsRPCCounter])
  /\ FromHex Sample.lib "abc"
     = ([], Some "encoding/hex: odd length hex string")
  /\ GetBlockByHash Sample.node
       {| ByHash_Hash := "abc"; ByHash_FullTransaction := false |}
     = ((None, Some "encoding/hex: odd length hex string"),
        [Mark metricsRPCCounter]).
Proof.
  assert (Hnone : GetBlockOnCanonicalChainByHeight Sample.node
                    (ByHeight_Height
                       {| ByHeight_Height := 0;
                          ByHeight_FullTransaction := false |}) = None)
    by reflexivity.
  assert (Hhex : FromHex Sample.lib
                   (ByHash_Hash {| ByHash_Hash := "abc";
                                   ByHash_FullTransaction := false |})
                 = ([], Some "encoding/hex: odd length hex string"))
    by reflexivity.
  split; [exact Hnone | split; [ | split; [exact Hhex | ] ] ].
  - exact (proj1 (proj2 (proj2 (block_queries_not_found Sample.node)))
             _ Hnone).
  - exact (proj1 (proj2 (block_queries_not_found Sample.node))
             _ _ _ Hhex).
Defined.

Lemma block_queries_agree_witness :
  FromHex Sample.lib (Hash_String Sample.lib (block_Hash Sample.tail))
    = (block_Hash Sample.tail, None)
  /\ GetBlock Sample.node (block_Hash Sample.tail) = Some Sample.tail
  /\ GetBlockOnCanonicalChainByHeight Sample.node 2 = Some Sample.tail
  /\ GetBlockByHash Sample.node
       {| ByHash_Hash := Hash_String Sample.lib (block_Hash Sample.tail);
          ByHash_FullTransaction := false |}
     = GetBlockByHeight Sample.node
         {| ByHeight_Height := 2; ByHeight_FullTransaction := false |}.
Proof.
  assert (Hhex : FromHex Sample.lib
                   (ByHash_Hash
                      {| ByHash_Hash :=
                           Hash_String Sample.lib (block_Hash Sample.tail);
                         ByHash_FullTransaction := false |})
                 = (block_Hash Sample.tail, None)) by reflexivity.
  assert (Hblock : GetBlock Sample.node (block_Hash Sample.tail)
                   = Some Sample.tail) by reflexivity.
  assert (Hheight : GetBlockOnCanonicalChainByHeight Sample.node
                      (ByHeight_Height
                         {| ByHeight_Height := 2;
                            ByHeight_FullTransaction := false |})
                    = Some Sample.tail) by reflexivity.
  split; [exact Hhex | split; [exact Hblock | split; [exact Hheight | ] ] ].
  exact (proj1 (block_queries_agree Sample.node _ _ Hhex Hblock Hheight)
           eq_refl).
Defined.

Lemma toTransactionResponse_status_witness :
  exists resp,
    toTransactionResponse Sample.node Sample.txFailed = (Some resp, None)
    /\ Tx_Status resp = StatusFailed.
Proof.
  eexists.
  assert (Hrun : forall resp,
             toTransactionResponse Sample.node Sample.txFailed
               = (Some resp, None) ->
             toTransactionResponse Sample.node Sample.txFailed
               = (Some resp, None)
             /\ Tx_Status resp = StatusFailed).
  { intros resp H. split; [exact H | ].
    exact (toTransactionResponse_status Sample.node Sample.txFailed H). }
  apply Hrun. vm_compute. reflexivity.
Defined.

Lemma unknown_transaction_not_found_witness :
  FromHex Sample.lib "abcd" = (list_byte_of_string "abcd", None)
  /\ GetTransaction Sample.node (list_byte_of_string "abcd") = None
  /\ GetTransactionReceipt Sample.node {| ByHash_TxHash := "abcd" |}
     = ((None, Some "transaction not found"), [Mark metricsRPCCounter])
  /\ GetGasUsed Sample.node {| HashRequest_Hash := "abcd" |}
     = ((None, Some "transaction not found"), [Mark metricsRPCCounter]).
Proof.
  assert (Hhex : FromHex Sample.lib "abcd"
                 = (list_byte_of_string "abcd", None)) by reflexivity.
  assert (Hnone : GetTransaction Sample.node (list_byte_of_string "abcd")
                  = None) by reflexivity.
  split; [exact Hhex | split; [exact Hnone | ] ].
  exact (proj1 (unknown_transaction_not_found Sample.node) _ _ Hhex Hnone).
Defined.

Lemma GetEventsByHash_lists_events_witness :
  block_GetTransaction (TailBlock Sample.node)
    (fst (FromHex Sample.lib
            (HashRequest_Hash (Sample.eventsOf Sample.txSuccess))))
    = (Some Sample.txSuccess, None)
  /\ FetchEvents (TailBlock Sample.node)
       (Transaction_Hash Sample.node Sample.txSuccess)
     = (Some [ {| Topic := "chain.executeTxSuccess"; Event_Data := "{}" |} ],
        None)
  /\ exists resp,
       GetEventsByHash Sample.node (Sample.eventsOf Sample.txSuccess)
         = ((Some resp, None), [Mark metricsRPCCounter])
       /\ map RpcEvent_Topic (Events resp) = ["chain.executeTxSuccess"]
       /\ map RpcEvent_Data (Events resp) = ["{}"]
       /\ (Some [ {| Topic := "chain.executeTxSuccess";
                     Event_Data := "{}" |} ] = None ->
           Events resp = []).
Proof.
  assert (Htx : block_GetTransaction (TailBlock Sample.node)
                  (fst (FromHex Sample.lib
                          (HashRequest_Hash
                             (Sample.eventsOf Sample.txSuccess))))
                = (Some Sample.txSuccess, None)) by reflexivity.
  assert (Hevents : FetchEvents (TailBlock Sample.node)
                      (Transaction_Hash Sample.node Sample.txSuccess)
                    = (Some [ {| Topic := "chain.executeTxSuccess";
                                 Event_Data := "{}" |} ], None))
    by reflexivity.
  split; [exact Htx | split; [exact Hevents | ] ].
  exact (GetEventsByHash_lists_events Sample.node
           (Sample.eventsOf Sample.txSuccess) Htx Hevents).
Defined.

Lemma GetEventsByHash_errors_witness :
  block_GetTransaction (TailBlock Sample.faultyNode)
    (fst (FromHex Sample.lib
            (HashRequest_Hash (Sample.eventsOf Sample.txSuccess))))
    = (Some Sample.txSuccess, None)
  /\ FetchEvents (TailBlock Sample.faultyNode)
       (Transaction_Hash Sample.faultyNode Sample.txSuccess)
     = (None, Some "trie: storage failure")
  /\ GetEventsByHash Sample.faultyNode (Sample.eventsOf Sample.txSuccess)
     = ((None, Some "trie: storage failure"), [Mark metricsRPCCounter])
  /\ (tx_type Sample.txSuccess <> TxPayloadDeployType Sample.lib ->
      exists resp,
        toTransactionResponse Sample.faultyNode Sample.txSuccess
        = (Some resp, None)).
Proof.
  assert (Htx : block_GetTransaction (TailBlock Sample.faultyNode)
                  (fst (FromHex Sample.lib
                          (HashRequest_Hash
                             (Sample.eventsOf Sample.txSuccess))))
                = (Some Sample.txSuccess, None)) by reflexivity.
  assert (Hevents : FetchEvents (TailBlock Sample.faultyNode)
                      (Transaction_Hash Sample.faultyNode Sample.txSuccess)
                    = (None, Some "trie: storage failure")) by reflexivity.
  split; [exact Htx | split; [exact Hevents | ] ].
  exact (proj2 (GetEventsByHash_errors Sample.faultyNode)
           (Sample.eventsOf Sample.txSuccess) Sample.txSuccess None
           "trie: storage failure" Htx Hevents).
Defined.

Lemma Subscribe_streaming_keeps_registrations_witness :
  exists log,
    Subscribe Sample.node Sample.subscription Sample.afterFailedSend
      = (Streaming, log)
    /\ (forall e, In e log -> ~ isDeregister e).
Proof.
  eexists.
  assert (Hrun : forall log,
             Subscribe Sample.node Sample.subscription Sample.afterFailedSend
               = (Streaming, log) ->
             Subscribe Sample.node Sample.subscription Sample.afterFailedSend
               = (Streaming, log)
             /\ (forall e, In e log -> ~ isDeregister e)).
  { intros log H. split; [exact H | ].
    exact (proj1 (Subscribe_streaming_keeps_registrations Sample.node
                    Sample.subscription Sample.afterFailedSend H)). }
  apply Hrun. reflexivity.
Defined.

Lemma Subscribe_closed_deregisters_witness :
  Subscribe Sample.node Sample.subscription Sample.failedForward
    = (Closed "rpc error: transport is closing",
       [ Mark metricsRPCCounter;
         EmitterRegister "chain.newTailBlock";
         NetRegister "newblock";
         NetRegister "newtx";
         StreamSend {| MsgType := "chain.newTailBlock"; Data := "{}" |};
         NetDeregister "newtx";
         NetDeregister "newblock";
         EmitterDeregister "chain.newTailBlock" ])
  /\ exists sends,
       streamLoop Sample.node Sample.failedForward
         = (Some "rpc error: transport is closing", sends)
       /\ Forall (@isSend Sample.lib) sends
       /\ [ Mark metricsRPCCounter;
            EmitterRegister "chain.newTailBlock";
            NetRegister "newblock";
            NetRegister "newtx";
            StreamSend {| MsgType := "chain.newTailBlock"; Data := "{}" |};
            NetDeregister "newtx";
            NetDeregister "newblock";
            EmitterDeregister "chain.newTailBlock" ]
          = [Mark metricsRPCCounter]
            ++ map EmitterRegister (Subscribe_Topic Sample.subscription)
            ++ [NetRegister (MessageTypeNewBlock Sample.lib);
                NetRegister (MessageTypeNewTx Sample.lib)]
            ++ sends
            ++ [NetDeregister (MessageTypeNewTx Sample.lib);
                NetDeregister (MessageTypeNewBlock Sample.lib)]
            ++ map EmitterDeregister (Subscribe_Topic Sample.subscription).
Proof.
  assert (Hrun : Subscribe Sample.node Sample.subscription
                   Sample.failedForward
                 = (Closed "rpc error: transport is closing",
                    [ Mark metricsRPCCounter;
                      EmitterRegister "chain.newTailBlock";
                      NetRegister "newblock";
                      NetRegister "newtx";
                      StreamSend {| MsgType := "chain.newTailBlock";
                                    Data := "{}" |};
                      NetDeregister "newtx";
                      NetDeregister "newblock";
                      EmitterDeregister "chain.newTailBlock" ]))
    by reflexivity.
  split; [exact Hrun | ].
  exact (Subscribe_closed_deregisters Sample.node Sample.subscription
           Sample.failedForward Hrun).
Defined.

Lemma Subscribe_closed_is_final_witness :
  exists log,
    Subscribe Sample.node Sample.subscription Sample.failedForward
      = (Closed "rpc error: transport is closing", log)
    /\ Subscribe Sample.node Sample.subscription
         (Sample.failedForward ++ Sample.afterFailedSend)
       = (Closed "rpc error: transport is closing", log).
Proof.
  eexists.
  assert (Hrun : forall log,
             Subscribe Sample.node Sample.subscription Sample.failedForward
               = (Closed "rpc error: transport is closing", log) ->
             Subscribe Sample.node Sample.subscription Sample.failedForward
               = (Closed "rpc error: transport is closing", log)
             /\ Subscribe Sample.node Sample.subscription
                  (Sample.failedForward ++ Sample.afterFailedSend)
                = (Closed "rpc error: transport is closing", log)).
  { intros log H. split; [exact H | ].
    exact (Subscribe_closed_is_final Sample.node Sample.subscription
             Sample.failedForward Sample.afterFailedSend H). }
  apply Hrun. reflexivity.
Defined.

Lemma decode_failure_closes_session_witness :
  MessageType Sample.emptyAnnouncement = MessageTypeNewBlock Sample.lib
  /\ decodeBlockMessage Sample.node (Message_Data Sample.emptyAnnouncement)
     = Err "proto: unexpected end of input"
  /\ streamLoop Sample.node
       (FromNetEventCh Sample.emptyAnnouncement None
        :: Sample.afterFailedSend)
     = (Some "proto: unexpected end of input", []).
Proof.
  assert (Htype : MessageType Sample.emptyAnnouncement
                  = MessageTypeNewBlock Sample.lib) by reflexivity.
  assert (Hdec : decodeBlockMessage Sample.node
                   (Message_Data Sample.emptyAnnouncement)
                 = Err "proto: unexpected end of input") by reflexivity.
  split; [exact Htype | split; [exact Hdec | ] ].
  exact (proj1 (decode_failure_closes_session Sample.node
                  Sample.emptyAnnouncement None Sample.afterFailedSend
                  (or_introl (conj Htype Hdec)))).
Defined.

Lemma network_message_forwarding_witness :
  MessageType Sample.announcement = MessageTypeNewBlock Sample.lib
  /\ decodeBlockMessage Sample.node (Message_Data Sample.announcement)
     = Ok "{block}"
  /\ streamLoop Sample.node [FromNetEventCh Sample.announcement None]
     = (None, [StreamSend {| MsgType := "newblock"; Data := "{block}" |}]).
Proof.
  assert (Htype : MessageType Sample.announcement
                  = MessageTypeNewBlock Sample.lib) by reflexivity.
  assert (Hdec : decodeBlockMessage Sample.node
                   (Message_Data Sample.announcement) = Ok "{block}")
    by reflexivity.
  split; [exact Htype | split; [exact Hdec | ] ].
  exact (proj1 (network_message_forwarding Sample.node Sample.announcement
                  [])
           "{block}" (or_introl (conj Htype Hdec))).
Defined.

Lemma parseTransaction_built_fields_witness :
  exists tx,
    parseTransaction Sample.node Sample.deployAndCall = Ok tx
    /\ exists fromAddr toAddr,
         AddressParse Sample.lib (From Sample.deployAndCall) = Ok fromAddr
         /\ AddressParse Sample.lib (To Sample.deployAndCall) = Ok toAddr
         /\ tx_from tx = fromAddr
         /\ tx_to tx = toAddr
         /\ tx_nonce tx = Nonce Sample.deployAndCall
         /\ tx_chainID tx = ChainID Sample.node
         /\ tx_type tx
            = typeTag Sample.lib (selectByPrecedence Sample.deployAndCall)
         /\ serialize Sample.lib (selectByPrecedence Sample.deployAndCall)
              Sample.deployAndCall
            = (tx_payload tx, None).
Proof.
  eexists.
  assert (Hrun : forall tx,
             parseTransaction Sample.node Sample.deployAndCall = Ok tx ->
             parseTransaction Sample.node Sample.deployAndCall = Ok tx
             /\ _)
    by (intros tx H; split;
        [exact H
        | exact (parseTransaction_built_fields Sample.node
                   Sample.deployAndCall H)]).
  apply Hrun. reflexivity.
Defined.

Lemma parseTransaction_error_order_witness :
  AddressParse Sample.lib (From Sample.noSender)
    = Err "address: invalid address"
  /\ parseTransaction Sample.node Sample.noSender
     = Err "address: invalid address".
Proof.
  assert (Haddr : AddressParse Sample.lib (From Sample.noSender)
                  = Err "address: invalid address") by reflexivity.
  split; [exact Haddr | ].
  exact (proj1 (parseTransaction_error_order Sample.node Sample.noSender)
           _ Haddr).
Defined.

Lemma sendTransaction_rejections_witness :
  exists tx0,
    AddressParse Sample.lib (From Sample.unsignable) = Ok Sample.bob
    /\ (GetNonce (TailBlock Sample.node)
          (Address_Bytes Sample.lib Sample.bob)
        < Nonce Sample.unsignable)%N
    /\ parseTransaction Sample.node Sample.unsignable = Ok tx0
    /\ SignTransaction Sample.node (tx_from tx0) tx0
       = (tx0, Some "account is not found")
    /\ sendTransaction Sample.node Sample.unsignable
       = ((None, Some "account is not found"),
          [CallSignTransaction (tx_from tx0) tx0;
           Mark metricsSendTxFailed]).
Proof.
  eexists.
  assert (Haddr : AddressParse Sample.lib (From Sample.unsignable)
                  = Ok Sample.bob) by reflexivity.
  assert (Hnonce : (GetNonce (TailBlock Sample.node)
                      (Address_Bytes Sample.lib Sample.bob)
                    < Nonce Sample.unsignable)%N) by reflexivity.
  assert (Hrun : forall tx0,
             parseTransaction Sample.node Sample.unsignable = Ok tx0 ->
             SignTransaction Sample.node (tx_from tx0) tx0
               = (tx0, Some "account is not found") ->
             AddressParse Sample.lib (From Sample.unsignable) = Ok Sample.bob
             /\ (GetNonce (TailBlock Sample.node)
                   (Address_Bytes Sample.lib Sample.bob)
                 < Nonce Sample.unsignable)%N
             /\ parseTransaction Sample.node Sample.unsignable = Ok tx0
             /\ SignTransaction Sample.node (tx_from tx0) tx0
                = (tx0, Some "account is not found")
             /\ sendTransaction Sample.node Sample.unsignable
                = ((None, Some "account is not found"),
                   [CallSignTransaction (tx_from tx0) tx0;
                    Mark metricsSendTxFailed])).
  { intros tx0 Htx Hsign. repeat (split; [assumption | ]).
    exact (proj1 (proj2 (proj2 (sendTransaction_rejections Sample.node
                                  Sample.unsignable) Sample.bob Haddr Hnonce))
             tx0 tx0 "account is not found" Htx Hsign). }
  apply Hrun; reflexivity.
Defined.

Lemma GetAccountState_at_height_witness :
  AddressParse Sample.lib "alice" = Ok Sample.alice
  /\ (0 < 1)%N
  /\ GetBlockOnCanonicalChainByHeight Sample.node 1 = Some Sample.genesis
  /\ GetAccountState Sample.node
       {| AccountState_Address := "alice"; AccountState_Height := 1 |}
     = ((Some {| Balance := "1000"; AccountState_Nonce := "5" |}, None),
        [Mark metricsRPCCounter; Mark metricsAccountStateSuccess]).
Proof.
  assert (Haddr : AddressParse Sample.lib
                    (AccountState_Address
                       {| AccountState_Address := "alice";
                          AccountState_Height := 1 |})
                  = Ok Sample.alice) by reflexivity.
  assert (Hpos : (0 < AccountState_Height
                         {| AccountState_Address := "alice";
                            AccountState_Height := 1 |})%N) by reflexivity.
  assert (Hblock : GetBlockOnCanonicalChainByHeight Sample.node
                     (AccountState_Height
                        {| AccountState_Address := "alice";
                           AccountState_Height := 1 |})
                   = Some Sample.genesis) by reflexivity.
  split; [exact Haddr | split; [exact Hpos | split; [exact Hblock | ] ] ].
  exact (proj2 (GetAccountState_at_height Sample.node
                  {| AccountState_Address := "alice";
                     AccountState_Height := 1 |})
           Sample.alice Sample.genesis Haddr Hpos Hblock).
Defined.

Section Acceptance.

Variable L : CoreLib.
Variable neb : Neblet L.

(** X25.  When the sender parses, its nonce in the tail block is below the
    request's, the transaction can be built, the signer signs it and the
    pool accepts the signed transaction, [sendTransaction] answers with
    the hash string of the signed transaction and, for a Deploy
    transaction, the contract address derived from its sender and nonce
    (empty otherwise), having signed once, pushed once and marked the
    success counter, in that order. *)
Theorem sendTransaction_accepts :
  forall (req : TransactionRequest) (addr : Address L)
         (tx0 tx : Transaction L),
    AddressParse L (From req) = Ok addr ->
    (GetNonce (TailBlock neb) (Address_Bytes L addr) < Nonce req)%N ->
    parseTransaction neb req = Ok tx0 ->
    SignTransaction neb (tx_from tx0) tx0 = (tx, None) ->
    PushAndBroadcast neb tx = None ->
    sendTransaction neb req
    = ((Some {| Txhash := Hash_String L (Transaction_Hash neb tx);
                SendTx_ContractAddress :=
                  if (tx_type tx =? TxPayloadDeployType L)%string
                  then derivedContractAddress L (tx_from tx) (tx_nonce tx)
                  else "" |}, None),
       [CallSignTransaction (tx_from tx0) tx0;
        CallPushAndBroadcast tx;
        Mark metricsSendTxSuccess]).
Proof.
  intros req addr tx0 tx Haddr Hnonce Hparse Hsign Hpush.
  apply N.leb_gt in Hnonce.
  unfold sendTransaction.
  rewrite Haddr, Hnonce, Hparse, Hsign, Hpush.
  unfold derivedContractAddress, Sha3256. simpl concat. rewrite app_nil_r.
  destruct (tx_type tx =? TxPayloadDeployType L)%string; [ | reflexivity].
  destruct (NewContractAddressFromHash L
              (sha3 L (Address_Bytes L (tx_from tx)
                       ++ FromUint64 L (tx_nonce tx))))
    as [address aerr].
  reflexivity.
Qed.

End Acceptance.

Lemma sendTransaction_accepts_witness :
  exists tx0,
    AddressParse Sample.lib (From Sample.deployAndCall) = Ok Sample.alice
    /\ (GetNonce (TailBlock Sample.node)
          (Address_Bytes Sample.lib Sample.alice)
        < Nonce Sample.deployAndCall)%N
    /\ parseTransaction Sample.node Sample.deployAndCall = Ok tx0
    /\ SignTransaction Sample.node (tx_from tx0) tx0
       = (Sample.signedDeploy, None)
    /\ PushAndBroadcast Sample.node Sample.signedDeploy = None
    /\ sendTransaction Sample.node Sample.deployAndCall
       = ((Some {| Txhash :=
                     Hash_String Sample.lib
                       (Transaction_Hash Sample.node Sample.signedDeploy);
                   SendTx_ContractAddress :=
                     derivedContractAddress Sample.lib Sample.alice 6 |},
           None),
          [CallSignTransaction (tx_from tx0) tx0;
           CallPushAndBroadcast Sample.signedDeploy;
           Mark metricsSendTxSuccess]).
Proof.
  eexists.
  assert (Haddr : AddressParse Sample.lib (From Sample.deployAndCall)
                  = Ok Sample.alice) by reflexivity.
  assert (Hnonce : (GetNonce (TailBlock Sample.node)
                      (Address_Bytes Sample.lib Sample.alice)
                    < Nonce Sample.deployAndCall)%N) by reflexivity.
  assert (Hpush : PushAndBroadcast Sample.node Sample.signedDeploy = None)
    by reflexivity.
  assert (Hrun : forall tx0,
             parseTransaction Sample.node Sample.deployAndCall = Ok tx0 ->
             SignTransaction Sample.node (tx_from tx0) tx0
               = (Sample.signedDeploy, None) ->
             AddressParse Sample.lib (From Sample.deployAndCall)
               = Ok Sample.alice
             /\ (GetNonce (TailBlock Sample.node)
                   (Address_Bytes Sample.lib Sample.alice)
                 < Nonce Sample.deployAndCall)%N
             /\ parseTransaction Sample.node Sample.deployAndCall = Ok tx0
             /\ SignTransaction Sample.node (tx_from tx0) tx0
                = (Sample.signedDeploy, None)
             /\ PushAndBroadcast Sample.node Sample.signedDeploy = None
             /\ sendTransaction Sample.node Sample.deployAndCall
                = ((Some {| Txhash :=
                              Hash_String Sample.lib
                                (Transaction_Hash Sample.node
                                   Sample.signedDeploy);
                            SendTx_ContractAddress :=
                              derivedContractAddress Sample.lib
                                Sample.alice 6 |},
                    None),
                   [CallSignTransaction (tx_from tx0) tx0;
                    CallPushAndBroadcast Sample.signedDeploy;
                    Mark metricsSendTxSuccess])).
  { intros tx0 Htx Hsign. repeat (split; [assumption | ]).
    exact (sendTransaction_accepts Sample.node Sample.deployAndCall
             Haddr Hnonce Htx Hsign Hpush). }
  apply Hrun; reflexivity.
Defined.
